(** * Call-intel widget: report view-model logic

    A shallow embedding of the TypeScript sources of the dashboard
    (duration pipe, label pipe, icon resolvers, the two dialog view-model
    builders, the date range of the queue dialog, the table headers, the
    hourly and agent chart adapters), followed by the properties of its
    specification, stated and settled over that embedding, and by further
    properties read off the code.

    JavaScript strings are modelled as [string] (byte strings); every
    literal of the sources is ASCII except the arrow of the call dialog,
    which is kept as its UTF-8 bytes. *)

From Stdlib Require Import ZArith QArith Qround Qabs List String Ascii Bool Lia.
From Stdlib Require Import Sorted Permutation DecimalString DecimalN DecimalPos.
Import ListNotations.

Set Warnings "-register-all".
Local Open Scope string_scope.

(** * Part I: the model *)

(** ** Strings *)

Module JsString.

(** [forallb] on the characters of a string. *)
Fixpoint every (p : ascii -> bool) (s : string) : bool :=
  match s with
  | EmptyString => true
  | String c s' => p c && every p s'
  end.

Fixpoint dropWhile (p : ascii -> bool) (s : string) : string :=
  match s with
  | EmptyString => EmptyString
  | String c s' => if p c then dropWhile p s' else s
  end.

(** Whether the last character of [s] is in class [p]. *)
Fixpoint last_is (p : ascii -> bool) (s : string) : bool :=
  match s with
  | EmptyString => false
  | String c EmptyString => p c
  | String _ s' => last_is p s'
  end.

(** [s0] minus its suffix [s1]: the characters a matcher consumed when it
    went from input [s0] to input [s1]. *)
Definition consumed (s0 s1 : string) : string :=
  substring 0 (String.length s0 - String.length s1) s0.

(** [String.prototype.toLowerCase], on the ASCII letters; the other bytes
    are left as they are. The terms the lowered keys are compared with are
    ASCII. Lower-casing a character outside ASCII gives an ASCII letter in
    two cases only (U+0130 gives an i followed by a combining dot, U+212A
    gives a k), and no term has a k or ends with an i: the terms found in
    a key are those found in its bytes. *)
Definition lowerChar (c : ascii) : ascii :=
  let n := nat_of_ascii c in
  if (65 <=? n)%nat && (n <=? 90)%nat then ascii_of_nat (n + 32) else c.

Fixpoint toLowerCase (s : string) : string :=
  match s with
  | EmptyString => EmptyString
  | String c s' => String (lowerChar c) (toLowerCase s')
  end.

(** [String.prototype.includes]: [t] occurs in [s] at some position. *)
Fixpoint includes (s t : string) : bool :=
  prefix t s ||
  match s with
  | EmptyString => false
  | String _ s' => includes s' t
  end.

(** [String.prototype.padStart] (StringPad with placement start): the
    filler is repeated and truncated to the missing length. *)
Fixpoint filler (k : nat) (fill rest : string) : string :=
  match k with
  | O => EmptyString
  | S k' =>
      match rest with
      | String c r => String c (filler k' fill r)
      | EmptyString =>
          match fill with
          | String c r => String c (filler k' fill r)
          | EmptyString => EmptyString
          end
      end
  end.

Definition padStart (maxLength : nat) (fill : string) (s : string) : string :=
  if (maxLength <=? String.length s)%nat then s
  else filler (maxLength - String.length s) fill fill ++ s.

End JsString.

(** ** Backtracking matcher

    The pattern of the duration pipe is a sequence of character classes
    with one greedy repetition, two fixed repetitions, three capture
    groups and the end anchor. It is run the way a JavaScript engine runs
    it: each piece is given the rest of the pattern as a continuation, a
    greedy repetition first takes as much as it can and gives characters
    back when the continuation fails, and the whole pattern is tried at
    the successive start positions from the left. *)

Module RegExp.

Section Pieces.
Variable R : Type.

Definition cont : Type := string -> option R.

(** One character of a class. *)
Definition one (p : ascii -> bool) (k : cont) : cont :=
  fun s =>
    match s with
    | String c s' => if p c then k s' else None
    | EmptyString => None
    end.

(** Greedy [p*]. *)
Fixpoint star (p : ascii -> bool) (k : cont) (s : string) : option R :=
  match s with
  | String c s' =>
      if p c then
        match star p k s' with
        | Some r => Some r
        | None => k s
        end
      else k s
  | EmptyString => k s
  end.

(** Greedy [p+]. *)
Definition plus (p : ascii -> bool) (k : cont) : cont := one p (star p k).

(** [p{n}]. *)
Fixpoint rep (n : nat) (p : ascii -> bool) (k : cont) : cont :=
  match n with
  | O => k
  | S n' => one p (rep n' p k)
  end.

(** [$] without the multiline flag: only the end of the input. *)
Definition eoi (k : cont) : cont :=
  fun s =>
    match s with
    | EmptyString => k s
    | String _ _ => None
    end.

(** Leftmost start position: [at_] is the pattern run at one position. *)
Fixpoint search (at_ : cont) (s : string) : option R :=
  match at_ s with
  | Some r => Some r
  | None =>
      match s with
      | EmptyString => None
      | String _ s' => search at_ s'
      end
  end.

End Pieces.

Arguments one {R}.
Arguments star {R}.
Arguments plus {R}.
Arguments rep {R}.
Arguments eoi {R}.
Arguments search {R}.

(** [\d] *)
Definition isDigit (c : ascii) : bool :=
  let n := nat_of_ascii c in (48 <=? n)%nat && (n <=? 57)%nat.

(** A literal character. *)
Definition isChar (x : ascii) (c : ascii) : bool := Ascii.eqb x c.

End RegExp.

(** ** Duration pipe ([DurationPipe.transform]) *)

Module DurationPipe.
Import JsString RegExp.

(** The three capture groups of a match. *)
Record Groups := { hours : string; minutes : string; seconds : string }.

(** [/(\d+):(\d{2}):(\d{2})$/] at one start position. *)
Definition exec_at (s0 : string) : option Groups :=
  plus isDigit (fun s1 =>
  one (isChar ":") (fun s2 =>
  rep 2 isDigit (fun s3 =>
  one (isChar ":") (fun s4 =>
  rep 2 isDigit (fun s5 =>
  eoi (fun _ =>
    Some {| hours := consumed s0 s1;
            minutes := consumed s2 s3;
            seconds := consumed s4 s5 |}) s5) s4) s3) s2) s1) s0.

(** [v.match(...)]: the groups of the leftmost match, [None] for null. *)
Definition match_ (v : string) : option Groups := search exec_at v.

Definition transform (v : string) : string :=
  match match_ v with
  | Some m => padStart 2 "0" (hours m) ++ ":" ++ minutes m ++ ":" ++ seconds m
  | None => v
  end.

(** The shape the pattern describes, in the words of the specification:
    hours of one or more digits, minutes and seconds of two digits. *)
Definition digits (s : string) : bool := every isDigit s.

Definition two_digits (s : string) : Prop :=
  String.length s = 2%nat /\ digits s = true.

Definition hms (h mm ss : string) : string := h ++ ":" ++ mm ++ ":" ++ ss.

Definition is_hms (h mm ss : string) : Prop :=
  h <> "" /\ digits h = true /\ two_digits mm /\ two_digits ss.

(** [pre] does not end with a digit: the hours that follow it are a whole
    run of digits. *)
Definition no_trailing_digit (pre : string) : Prop :=
  last_is isDigit pre = false.

End DurationPipe.

(** ** Values of the language *)

Module Js.
Import JsString.

(** A Number is modelled by the rational it denotes: every finite double
    is a rational, and the two operations used on numbers here are defined
    by ECMA-262 on that mathematical value. *)
Inductive number : Type :=
| NaN
| Infinity (negative : bool)
| Finite (q : Q).

(** Built-in objects that a property read can reach through the prototype
    chain of a plain object. *)
Inductive native : Type :=
| NativeFunction (name : string)
| ObjectPrototypeObject
| ArrayPrototypeObject.

Inductive value : Type :=
| VUndefined
| VNull
| VBoolean (b : bool)
| VNumber (n : number)
| VString (s : string)
| VArray (elements : list value)
| VObject (properties : list (string * value))
| VNative (o : native).

(** The own properties of an object, in property order. *)
Definition props : Type := list (string * value).

Inductive error : Type :=
| TypeError (message : string)
| Error (message : string).

(** Completion of an evaluation: a value, or a thrown exception. *)
Inductive completion (A : Type) : Type :=
| Normal (a : A)
| Throw (e : error).

Arguments Normal {A}.
Arguments Throw {A}.

Definition bind {A B : Type} (c : completion A) (f : A -> completion B)
  : completion B :=
  match c with
  | Normal a => f a
  | Throw e => Throw e
  end.

Notation "x <- c ;; k" := (bind c (fun x => k))
  (at level 61, c at next level, right associativity).

(** What the host environment provides and this development does not
    define: the digits [Number::toString] chooses for a number that is not
    a safe integer (the shortest decimal that reads back as the same
    double), the [marked] Markdown renderer, the parser of the [Date]
    constructor (a time value in milliseconds since the epoch, [None] for
    NaN), the offset of local time from UTC in milliseconds at a given UTC
    time value, the way the locale data write a year before year 1, and
    the string an object converts to when it holds a function under its
    own [toString] or [valueOf] key (the outcome of calling that function;
    no parsed report holds one). *)
Class Host : Type := {
  shortest : Q -> string;
  marked_parse : string -> string;
  Date_parse : string -> option Z;
  LocalTZA : Z -> Z;
  year_before_1 : Z -> string;
  method_ToString : list (string * value) -> completion string
}.

(** The digits of the decimal representation of a natural number. *)
Definition decimal (n : N) : string :=
  NilEmpty.string_of_uint (N.to_uint n).

(** The number a string of digits denotes. *)
Definition digits_value (s : string) : option N :=
  option_map N.of_uint (NilEmpty.uint_of_string s).

Definition isInteger (q : Q) : bool :=
  (Qnum q mod Zpos (Qden q) =? 0)%Z.

(** [Number::toString] with radix 10. An integer below 2^53 in magnitude is
    printed with all its digits. *)
Definition Number_toString `{Host} (x : number) : string :=
  match x with
  | NaN => "NaN"
  | Infinity false => "Infinity"
  | Infinity true => "-Infinity"
  | Finite q =>
      let z := Qfloor q in
      if isInteger q && (Z.abs z <? 2 ^ 53)%Z
      then (if (z <? 0)%Z then "-" else "") ++ decimal (Z.abs_N z)
      else shortest q
  end.

(** [Number.prototype.toFixed(fractionDigits)], for 0 <= fractionDigits
    <= 100: the integer [n] closest to [x * 10^f] (the larger one on a
    tie), its digits padded to [f + 1] characters, the point before the
    last [f]. *)
Definition toFixed `{Host} (x : number) (fractionDigits : nat) : string :=
  match x with
  | Finite q =>
      let s := if (Qnum q <? 0)%Z then "-" else "" in
      let x := Qabs q in
      if Qle_bool (inject_Z (10 ^ 21)) x then s ++ Number_toString (Finite x)
      else
        let f := fractionDigits in
        let n := Qfloor (x * inject_Z (10 ^ Z.of_nat f) + (1 # 2))%Q in
        let m := decimal (Z.to_N n) in
        let m :=
          match f with
          | O => m
          | S _ =>
              let m := padStart (f + 1) "0" m in
              let k := String.length m in
              substring 0 (k - f) m ++ "." ++ substring (k - f) f m
          end in
        s ++ m
  | _ => Number_toString x
  end.

Definition typeof (v : value) : string :=
  match v with
  | VUndefined => "undefined"
  | VNull => "object"
  | VBoolean _ => "boolean"
  | VNumber _ => "number"
  | VString _ => "string"
  | VArray _ => "object"
  | VObject _ => "object"
  | VNative (NativeFunction _) => "function"
  | VNative _ => "object"
  end.

Definition ToBoolean (v : value) : bool :=
  match v with
  | VUndefined => false
  | VNull => false
  | VBoolean b => b
  | VNumber NaN => false
  | VNumber (Infinity _) => true
  | VNumber (Finite q) => negb (Qeq_bool q 0)
  | VString s => negb (String.eqb s "")
  | VArray _ => true
  | VObject _ => true
  | VNative _ => true
  end.

(** First own property named [k]. *)
Fixpoint lookup (k : string) (o : props) : option value :=
  match o with
  | [] => None
  | (k', v) :: o' => if String.eqb k' k then Some v else lookup k o'
  end.

(** [IsCallable]: the functions among the values are the built-in ones. *)
Definition callable (v : value) : bool :=
  match v with
  | VNative (NativeFunction _) => true
  | _ => false
  end.

(** [ToString]: what a template literal does to a substituted value.

    An object is converted by [OrdinaryToPrimitive] with hint string: the
    [toString] method is tried first and then [valueOf]. A plain object
    with no own [toString] entry inherits [Object.prototype.toString] and
    gives ["[object Object]"]. An own entry that is not a function hides
    that method; [valueOf], inherited, returns the object itself, and own
    and not a function, cannot be called: the conversion throws a
    TypeError. An array is joined with commas, its elements converted in
    turn, undefined and null giving the empty string. *)
Fixpoint ToString `{Host} (v : value) : completion string :=
  match v with
  | VUndefined => Normal "undefined"
  | VNull => Normal "null"
  | VBoolean true => Normal "true"
  | VBoolean false => Normal "false"
  | VNumber n => Normal (Number_toString n)
  | VString s => Normal s
  | VArray xs =>
      parts <-
        (fix join (xs : list value) : completion (list string) :=
           match xs with
           | [] => Normal []
           | x :: xs' =>
               s <- match x with
                    | VUndefined => Normal ""
                    | VNull => Normal ""
                    | _ => ToString x
                    end ;;
               rest <- join xs' ;;
               Normal (s :: rest)
           end) xs ;;
      Normal (String.concat "," parts)
  | VObject o =>
      match lookup "toString" o with
      | None => Normal "[object Object]"
      | Some method =>
          if callable method then method_ToString o
          else
            match lookup "valueOf" o with
            | Some method' =>
                if callable method' then method_ToString o
                else Throw (TypeError "Cannot convert object to primitive value")
            | None => Throw (TypeError "Cannot convert object to primitive value")
            end
      end
  | VNative (NativeFunction name) =>
      Normal ("function " ++ name ++ "() { [native code] }")
  | VNative ObjectPrototypeObject => Normal "[object Object]"
  | VNative ArrayPrototypeObject => Normal ""
  end.

Definition builtin (name : string) : string * value :=
  (name, VNative (NativeFunction name)).

(** The properties of [Object.prototype], which every plain object
    inherits. [__proto__] is an accessor that yields the prototype. *)
Definition ObjectPrototype : props :=
  [ ("constructor", VNative (NativeFunction "Object"));
    builtin "__defineGetter__"; builtin "__defineSetter__";
    builtin "hasOwnProperty"; builtin "__lookupGetter__";
    builtin "__lookupSetter__"; builtin "isPrototypeOf";
    builtin "propertyIsEnumerable"; builtin "toString"; builtin "valueOf";
    ("__proto__", VNative ObjectPrototypeObject);
    builtin "toLocaleString" ].

(** [o[k]] on a plain object: the own property, else the inherited one,
    else undefined. *)
Definition Get (o : props) (k : string) : value :=
  match lookup k o with
  | Some v => v
  | None =>
      match lookup k ObjectPrototype with
      | Some v => v
      | None => VUndefined
      end
  end.

(** The properties of [Array.prototype] (ECMAScript 2023). *)
Definition ArrayPrototype : props :=
  ("constructor", VNative (NativeFunction "Array")) ::
  ("__proto__", VNative ArrayPrototypeObject) ::
  map builtin
    [ "at"; "concat"; "copyWithin"; "fill"; "find"; "findIndex"; "findLast";
      "findLastIndex"; "lastIndexOf"; "pop"; "push"; "reverse"; "shift";
      "unshift"; "slice"; "sort"; "splice"; "includes"; "indexOf"; "join";
      "keys"; "entries"; "values"; "forEach"; "filter"; "flat"; "flatMap";
      "map"; "every"; "some"; "reduce"; "reduceRight"; "toLocaleString";
      "toString"; "toReversed"; "toSorted"; "toSpliced"; "with" ].

(** The element of [xs] whose index prints as [k]. *)
Fixpoint element (i : N) (k : string) (xs : list value) : option value :=
  match xs with
  | [] => None
  | x :: xs' => if String.eqb (decimal i) k then Some x else element (N.succ i) k xs'
  end.

(** [v.k] or [v[k]]: reading a property of null or undefined throws; a
    primitive has none of the properties read by the sources. *)
Definition GetV (v : value) (k : string) : completion value :=
  match v with
  | VUndefined => Throw (TypeError ("Cannot read properties of undefined (reading '" ++ k ++ "')"))
  | VNull => Throw (TypeError ("Cannot read properties of null (reading '" ++ k ++ "')"))
  | VObject o => Normal (Get o k)
  | VArray xs =>
      Normal
        match element 0 k xs with
        | Some x => x
        | None =>
            if String.eqb k "length"
            then VNumber (Finite (inject_Z (Z.of_nat (List.length xs))))
            else
              match lookup k ArrayPrototype with
              | Some m => m
              | None => Get [] k
              end
        end
  | _ => Normal VUndefined
  end.

(** [o[k] = v] on a plain object, for a key that is not an array index: an
    own property keeps its place, a new one goes last. *)
Fixpoint Set_ (o : props) (k : string) (v : value) : props :=
  match o with
  | [] => [(k, v)]
  | (k', v') :: o' =>
      if String.eqb k' k then (k', v) :: o' else (k', v') :: Set_ o' k v
  end.

(** [{ ...v }]: the own enumerable properties of [v], copied in order. *)
Fixpoint indexed (i : N) (xs : list value) : props :=
  match xs with
  | [] => []
  | x :: xs' => (decimal i, x) :: indexed (N.succ i) xs'
  end.

(** The UTF-16 code units of a string, which are what the indices of a
    JavaScript string count. The string is read as UTF-8: a sequence of
    one, two or three bytes is one code unit, a sequence of four bytes is
    a pair of surrogates, each written here as the three bytes its value
    would take; a byte that is not followed by the continuation bytes it
    announces is kept as a unit of its own. *)
Definition continuation (c : ascii) : bool :=
  let n := N_of_ascii c in ((128 <=? n) && (n <=? 191))%N.

Definition surrogate (u : N) : string :=
  String (ascii_of_N 237)
    (String (ascii_of_N (128 + (u / 64) mod 64))
       (String (ascii_of_N (128 + u mod 64)) EmptyString)).

Definition surrogates (a b c d : ascii) : list string :=
  let cp :=
    ((N_of_ascii a - 240) * 262144 + (N_of_ascii b - 128) * 4096 +
     (N_of_ascii c - 128) * 64 + (N_of_ascii d - 128))%N in
  let cp' := (cp - 65536)%N in
  [ surrogate (55296 + cp' / 1024)%N; surrogate (56320 + cp' mod 1024)%N ].

Fixpoint code_units (s : string) : list string :=
  match s with
  | EmptyString => []
  | String a s1 =>
      let n := N_of_ascii a in
      let alone := String a EmptyString :: code_units s1 in
      match s1 with
      | EmptyString => alone
      | String b s2 =>
          if ((192 <=? n) && (n <? 224))%N && continuation b
          then String a (String b EmptyString) :: code_units s2
          else
            match s2 with
            | EmptyString => alone
            | String c s3 =>
                if ((224 <=? n) && (n <? 240))%N && continuation b &&
                   continuation c
                then String a (String b (String c EmptyString)) :: code_units s3
                else
                  match s3 with
                  | EmptyString => alone
                  | String d s4 =>
                      if ((240 <=? n) && (n <? 248))%N && continuation b &&
                         continuation c && continuation d
                      then (surrogates a b c d ++ code_units s4)%list
                      else alone
                  end
            end
      end
  end.

Definition chars (s : string) : list value := map VString (code_units s).

Definition spread (v : value) : props :=
  match v with
  | VObject o => o
  | VArray xs => indexed 0 xs
  | VString s => indexed 0 (chars s)
  | _ => []
  end.

Definition keys (o : props) : list string := map fst o.


End Js.

(** ** Icon resolver, in the words of the specification

    Exact match of the lower-cased key against the terms of the mapping,
    then the first term in the order of the mapping that is a substring
    of the key, then the default. *)

Module IconSpec.
Import JsString Js.

Definition icon (mapping : props) (key : string) : value :=
  let key := toLowerCase key in
  match lookup key mapping with
  | Some i => i
  | None =>
      match find (fun entry => includes key (fst entry)) mapping with
      | Some (_, i) => i
      | None => VString "insights"
      end
  end.

(** Every icon of a mapping is truthy (a non-empty string). *)
Definition icons_truthy (mapping : props) : bool :=
  forallb (fun entry => ToBoolean (snd entry)) mapping.

End IconSpec.

(** ** Dates (ECMA-262, Date objects) *)

Module JsDate.
Import JsString Js.

Local Open Scope Z_scope.

Definition msPerDay : Z := 86400000.

Definition Day (t : Z) : Z := t / msPerDay.

Definition DayFromYear (y : Z) : Z :=
  365 * (y - 1970) + (y - 1969) / 4 - (y - 1901) / 100 + (y - 1601) / 400.

Definition InLeapYear (y : Z) : Z :=
  if ((y mod 4 =? 0) && negb (y mod 100 =? 0)) || (y mod 400 =? 0)
  then 1 else 0.

(** The year of a day number: the largest [y] with [DayFromYear y <= d],
    found from an estimate that is off by at most one. *)
Definition YearFromDay (d : Z) : Z :=
  let y := 1970 + (400 * d) / 146097 in
  if d <? DayFromYear y then y - 1
  else if DayFromYear (y + 1) <=? d then y + 1
  else y.

Definition YearFromTime (t : Z) : Z := YearFromDay (Day t).

Definition DayWithinYear (t : Z) : Z := Day t - DayFromYear (YearFromTime t).

(** The first day of month [m] (0 to 11) within a year. *)
Definition monthStart (m leap : Z) : Z :=
  match m with
  | 0 => 0
  | 1 => 31
  | 2 => 59 + leap
  | 3 => 90 + leap
  | 4 => 120 + leap
  | 5 => 151 + leap
  | 6 => 181 + leap
  | 7 => 212 + leap
  | 8 => 243 + leap
  | 9 => 273 + leap
  | 10 => 304 + leap
  | _ => 334 + leap
  end.

Definition MonthFromTime (t : Z) : Z :=
  let d := DayWithinYear t in
  let leap := InLeapYear (YearFromTime t) in
  if d <? 31 then 0
  else if d <? 59 + leap then 1
  else if d <? 90 + leap then 2
  else if d <? 120 + leap then 3
  else if d <? 151 + leap then 4
  else if d <? 181 + leap then 5
  else if d <? 212 + leap then 6
  else if d <? 243 + leap then 7
  else if d <? 273 + leap then 8
  else if d <? 304 + leap then 9
  else if d <? 334 + leap then 10
  else 11.

Definition DateFromTime (t : Z) : Z :=
  DayWithinYear t - monthStart (MonthFromTime t) (InLeapYear (YearFromTime t)) + 1.

Definition WeekDay (t : Z) : Z := (Day t + 4) mod 7.

Definition LocalTime `{Host} (t : Z) : Z := t + LocalTZA t.

Definition weekdayName (w : Z) : string :=
  match w with
  | 0 => "Sun" | 1 => "Mon" | 2 => "Tue" | 3 => "Wed"
  | 4 => "Thu" | 5 => "Fri" | _ => "Sat"
  end.

Definition monthName (m : Z) : string :=
  match m with
  | 0 => "Jan" | 1 => "Feb" | 2 => "Mar" | 3 => "Apr"
  | 4 => "May" | 5 => "Jun" | 6 => "Jul" | 7 => "Aug"
  | 8 => "Sep" | 9 => "Oct" | 10 => "Nov" | _ => "Dec"
  end.

Definition ToZeroPaddedDecimalString (n : Z) (minLength : nat) : string :=
  padStart minLength "0" (decimal (Z.to_N n)).

(** A Date object: its time value, [None] for NaN (an invalid date). *)
Definition Date : Type := option Z.

(** [new Date(string)] *)
Definition Date_new `{Host} (s : string) : Date := Date_parse s.

(** [a < b] and [a > b] on Date objects compare the time values; a
    comparison with NaN is false. *)
Definition Date_lt (a b : Date) : bool :=
  match a, b with
  | Some x, Some y => x <? y
  | _, _ => false
  end.

Definition Date_gt (a b : Date) : bool :=
  match a, b with
  | Some x, Some y => y <? x
  | _, _ => false
  end.

(** [Date.prototype.toDateString]: weekday, month, two-digit day and
    four-digit year of the local time, as in ["Wed Jul 09 2025"]. *)
Definition yearString (yv : Z) : string :=
  ((if (yv <? 0)%Z then "-" else "") ++
   ToZeroPaddedDecimalString (Z.abs yv) 4)%string.

Definition DateString (t : Z) : string :=
  (weekdayName (WeekDay t) ++ " " ++ monthName (MonthFromTime t) ++ " " ++
   ToZeroPaddedDecimalString (DateFromTime t) 2 ++ " " ++
   yearString (YearFromTime t))%string.

Definition toDateString `{Host} (d : Date) : string :=
  match d with
  | None => "Invalid Date"
  | Some tv => DateString (LocalTime tv)
  end.

(** [toLocaleDateString('en-US', { month: 'short', day: 'numeric',
    year: 'numeric' })]: the pattern is [MMM d, y] in the local time. *)
Definition yearNumeric `{Host} (y : Z) : string :=
  if 1 <=? y then decimal (Z.to_N y) else year_before_1 y.

Definition formatShort `{Host} (t : Z) : string :=
  (monthName (MonthFromTime t) ++ " " ++ decimal (Z.to_N (DateFromTime t)) ++
   ", " ++ yearNumeric (YearFromTime t))%string.

Definition toLocaleDateString_en_US_short `{Host} (d : Date) : string :=
  match d with
  | None => "Invalid Date"
  | Some tv => formatShort (LocalTime tv)
  end.

End JsDate.

(** ** Call-report dialog ([AnalysisDialogComponent]) *)

Module AnalysisDialog.
Import JsString Js.

(** The fields of [ReportJSON] the component reads; [kpi] is typed [any]. *)
Record ReportJSON : Type := {
  kpi : value;
  summary : string
}.

(** [DomSanitizer.bypassSecurityTrustHtml] wraps the markup unchanged. *)
Record SafeHtml : Type := bypassSecurityTrustHtml { html : string }.

Record AnalysisDialogComponent : Type := {
  displayKpi : props;
  summaryHtml : SafeHtml
}.

Definition constructor `{Host} (data : ReportJSON)
  : completion AnalysisDialogComponent :=
  (* 1 - build friendly KPI map *)
  let displayKpi := spread (kpi data) in
  longest <- GetV (kpi data) "longest" ;;
  displayKpi <-
    (if String.eqb (typeof longest) "object" && ToBoolean longest then
       let l := longest in
       duration <- GetV l "duration" ;;
       duration <- ToString duration ;;
       from_name <- GetV l "from_name" ;;
       from_name <- ToString from_name ;;
       to_name <- GetV l "to_name" ;;
       to_name <- ToString to_name ;;
       Normal
         (Set_ displayKpi "longest"
            (VString
               (duration ++ " (" ++ from_name ++ " → " ++ to_name ++ ")")))
     else Normal displayKpi) ;;
  (* 2 - convert Markdown to HTML and mark it safe *)
  let html :=
    marked_parse (if negb (String.eqb (summary data) "") then summary data else "") in
  Normal {| displayKpi := displayKpi;
            summaryHtml := bypassSecurityTrustHtml html |}.

Definition iconMap : props :=
  [ ("calls", VString "phone");
    ("duration", VString "schedule");
    ("success", VString "check_circle");
    ("missed", VString "phone_missed");
    ("answered", VString "call_received");
    ("outbound", VString "call_made");
    ("inbound", VString "call_received");
    ("average", VString "trending_up");
    ("total", VString "analytics");
    ("rate", VString "percent");
    ("volume", VString "volume_up");
    ("longest", VString "timer");
    ("shortest", VString "timer_off");
    ("failed", VString "error");
    ("busy", VString "phone_busy");
    ("voicemail", VString "voicemail");
    ("transfer", VString "call_split");
    ("hold", VString "pause_circle");
    ("queue", VString "queue");
    ("agent", VString "person");
    ("customer", VString "people");
    ("satisfaction", VString "sentiment_satisfied");
    ("resolution", VString "task_alt");
    ("escalation", VString "trending_up");
    ("abandoned", VString "call_end");
    ("wait", VString "access_time");
    ("response", VString "reply") ].

(** The value returned is declared a string; what the evaluation yields is
    a [value]. *)
Definition getKpiIcon (kpiKey : string) : value :=
  (* Find the best matching icon based on key content *)
  let lowerKey := toLowerCase kpiKey in
  (* Direct match first *)
  if ToBoolean (Get iconMap lowerKey) then Get iconMap lowerKey
  else
    (* Partial match *)
    match find (fun entry => includes lowerKey (fst entry)) iconMap with
    | Some (_, icon) => icon
    | None => VString "insights" (* default icon *)
    end.

End AnalysisDialog.

(** ** Queue report ([QueueReportJSON]) *)

Module QueueReport.
Import Js.

Record Interval : Type := {
  datetime : string;
  answered_calls : value;
  abandoned_calls : value
}.

(** The counts are declared strings and reach the display untouched; the
    rates and times are numbers. *)
Record QueueMetrics : Type := {
  total_offered : value;
  total_answered : value;
  total_abandoned : value;
  total_overflowed : value;
  abandonment_rate : number;
  answer_rate : number;
  overflow_rate : number;
  avg_wait_time_sec : number;
  max_wait_time_sec : number;
  avg_handle_time_sec : number;
  peak_interval : Interval;
  worst_abandon_interval : Interval
}.

(** The keys ['ANSWERED CALLS'], ['ABANDONED CALLS'] and
    ['OVERFLOWED CALLS'] are written with an underscore; [HOUR] is an
    integer, as in the data model of the specification. *)
Record HourBucket : Type := {
  HOUR : Z;
  ANSWERED_CALLS : number;
  ABANDONED_CALLS : number;
  OVERFLOWED_CALLS : number;
  TOTAL_OFFERED : number;
  ABANDONMENT_RATE : number
}.

(** Arrays are objects: a report holds a reference to its [service_trends]
    array, and the array itself lives in the heap. *)
Definition ref : Type := nat.

Definition heap : Type := ref -> list HourBucket.

Definition update (h : heap) (r : ref) (a : list HourBucket) : heap :=
  fun r' => if Nat.eqb r' r then a else h r'.

Record QueueReportJSON : Type := {
  queue_metrics : QueueMetrics;
  service_trends : ref;
  summary : string
}.

End QueueReport.

(** ** Queue dialog ([QueueDialogComponent]) *)

Module QueueDialog.
Import JsString Js JsDate QueueReport.

Record SafeHtml : Type := bypassSecurityTrustHtml { html : string }.

Record QueueDialogComponent : Type := {
  displayKpi : props;
  summaryHtml : SafeHtml;
  dateRange : string
}.

Definition calculateDateRange `{Host} (data : QueueReportJSON) : string :=
  let peakDate := Date_new (datetime (peak_interval (queue_metrics data))) in
  let worstDate := Date_new (datetime (worst_abandon_interval (queue_metrics data))) in
  let startDate := if Date_lt peakDate worstDate then peakDate else worstDate in
  let endDate := if Date_gt peakDate worstDate then peakDate else worstDate in
  let formatDate := fun date : Date => toLocaleDateString_en_US_short date in
  if String.eqb (toDateString startDate) (toDateString endDate)
  then formatDate startDate
  else formatDate startDate ++ " - " ++ formatDate endDate.

Definition constructor `{Host} (data : QueueReportJSON) : QueueDialogComponent :=
  let m := queue_metrics data in
  let displayKpi :=
    [ ("Total Offered", total_offered m);
      ("Total Answered", total_answered m);
      ("Total Abandoned", total_abandoned m);
      ("Answer Rate", VString (Number_toString (answer_rate m) ++ "%"));
      ("Abandonment Rate", VString (Number_toString (abandonment_rate m) ++ "%"));
      ("Avg Wait Time", VString (Number_toString (avg_wait_time_sec m) ++ "s"));
      ("Max Wait Time", VString (Number_toString (max_wait_time_sec m) ++ "s"));
      ("Avg Handle Time", VString (toFixed (avg_handle_time_sec m) 1 ++ "s")) ] in
  let html :=
    marked_parse (if negb (String.eqb (summary data) "") then summary data else "") in
  {| displayKpi := displayKpi;
     summaryHtml := bypassSecurityTrustHtml html;
     dateRange := calculateDateRange data |}.

(** A numeral with exactly one decimal place: an optional minus sign, one
    or more digits, the point, one digit. *)
Definition one_decimal (s : string) : bool :=
  let body :=
    match s with
    | String c r => if Ascii.eqb c "-" then r else s
    | EmptyString => s
    end in
  match body with
  | String c _ =>
      RegExp.isDigit c &&
      match dropWhile RegExp.isDigit body with
      | String p (String d EmptyString) => Ascii.eqb p "." && RegExp.isDigit d
      | _ => false
      end
  | EmptyString => false
  end.

Definition iconMap : props :=
  [ ("total offered", VString "phone_in_talk");
    ("total answered", VString "call_received");
    ("total abandoned", VString "call_end");
    ("answer rate", VString "check_circle");
    ("abandonment rate", VString "cancel");
    ("avg wait time", VString "access_time");
    ("max wait time", VString "timer");
    ("avg handle time", VString "schedule");
    ("queue", VString "queue");
    ("calls", VString "phone");
    ("rate", VString "percent");
    ("time", VString "schedule");
    ("wait", VString "access_time");
    ("handle", VString "touch_app");
    ("answered", VString "call_received");
    ("abandoned", VString "call_end");
    ("offered", VString "phone_in_talk") ].

Definition getKpiIcon (kpiKey : string) : value :=
  let lowerKey := toLowerCase kpiKey in
  if ToBoolean (Get iconMap lowerKey) then Get iconMap lowerKey
  else
    match find (fun entry => includes lowerKey (fst entry)) iconMap with
    | Some (_, icon) => icon
    | None => VString "insights"
    end.

End QueueDialog.

(** ** Queue charts ([QueueChartsComponent.createHourlyChart]) *)

Module QueueCharts.
Import JsString Js QueueReport.

(** [Array.prototype.sort]: the array is sorted in place and the sort is
    stable. With a consistent comparator the resulting order does not
    depend on the algorithm of the engine; it is computed here by
    insertion, each element going before the first one it does not
    exceed. *)
Section Sort.
Variable A : Type.
Variable comparefn : A -> A -> Z.

Fixpoint insert (x : A) (l : list A) : list A :=
  match l with
  | [] => [x]
  | y :: l' => if (comparefn x y <=? 0)%Z then x :: l else y :: insert x l'
  end.

Fixpoint sort (l : list A) : list A :=
  match l with
  | [] => []
  | x :: l' => insert x (sort l')
  end.

End Sort.

Arguments insert {A}.
Arguments sort {A}.

(** Ascending order of the keys, and the elements of one key in the order
    in which a list has them. *)
Definition ascending {A : Type} (key : A -> Z) (l : list A) : Prop :=
  StronglySorted (fun a b => (key a <= key b)%Z) l.

Definition group {A : Type} (key : A -> Z) (k : Z) (l : list A) : list A :=
  filter (fun a => (key a =? k)%Z) l.

(** [this.data.service_trends.sort(comparefn)]: the array behind the
    reference is replaced by its sorted content, and the same reference is
    returned. *)
Definition Array_sort (comparefn : HourBucket -> HourBucket -> Z)
  (r : ref) (h : heap) : heap * ref :=
  (update h r (sort comparefn (h r)), r).

Record Dataset : Type := {
  label : string;
  data : list number;
  borderColor : string;
  backgroundColor : string;
  yAxisID : string;
  tension : Q
}.

(** The configuration handed to [new Chart]; its [options] are a literal
    that does not depend on the data and are left out. *)
Record ChartConfiguration : Type := {
  type : string;
  labels : list string;
  datasets : list Dataset
}.

Inductive CanvasRenderingContext2D : Type := Context2D.

(** [report] is the [data] input of the component; [getContext('2d')]
    of the hourly canvas may be null. *)
Record QueueChartsComponent : Type := {
  report : QueueReportJSON;
  hourlyCanvas_getContext_2d : option CanvasRenderingContext2D
}.

(** The method up to its last statement: the heap after the sort, and the
    configuration the method hands to [new Chart]; none when the canvas
    gives no context and the method returns early. The last statement is
    [new_Chart] below. *)
Definition createHourlyChart `{Host} (this : QueueChartsComponent) (h : heap)
  : heap * option ChartConfiguration :=
  match hourlyCanvas_getContext_2d this with
  | None => (h, None)
  | Some ctx =>
      let '(h, hourlyData) :=
        Array_sort (fun a b => (HOUR a - HOUR b)%Z)
          (service_trends (report this)) h in
      let config :=
        {| type := "line";
           labels :=
             map (fun b => Number_toString (Finite (inject_Z (HOUR b))) ++ ":00")
               (h hourlyData);
           datasets :=
             [ {| label := "Total Calls";
                  data := map (fun b => TOTAL_OFFERED b) (h hourlyData);
                  borderColor := "#3b82f6";
                  backgroundColor := "rgba(59, 130, 246, 0.1)";
                  yAxisID := "y";
                  tension := 4 # 10 |};
               {| label := "Abandonment Rate (%)";
                  data := map (fun b => ABANDONMENT_RATE b) (h hourlyData);
                  borderColor := "#ef4444";
                  backgroundColor := "rgba(239, 68, 68, 0.1)";
                  yAxisID := "y1";
                  tension := 4 # 10 |} ] |} in
      (h, Some config)
  end.


End QueueCharts.

(** ** Sample data

    A host and the reports of the specification's examples, on which the
    model is run. Local time is UTC, and the parser of the host knows the
    datetimes of the examples. *)

Module Sample.
Import Js QueueReport.

Definition host : Host :=
  {| shortest := fun q =>
       if Qeq_bool q (8592 # 100) then "85.92"
       else if Qeq_bool q (1028 # 100) then "10.28"
       else "";
     marked_parse := fun s => s;
     Date_parse := fun s =>
       if String.eqb s "2025-07-09T13:30:00" then Some 1752067800000%Z
       else if String.eqb s "2025-07-09T23:59:59" then Some 1752105599000%Z
       else if String.eqb s "2025-07-16T11:30:00" then Some 1752665400000%Z
       else None;
     LocalTZA := fun _ => 0%Z;
     year_before_1 := fun _ => "";
     method_ToString := fun _ =>
       Throw (TypeError "Cannot convert object to primitive value") |}.

Definition callReport (longest : value) : AnalysisDialog.ReportJSON :=
  {| AnalysisDialog.kpi :=
       VObject [ ("total", VNumber (Finite 1634)); ("longest", longest);
                 ("answered_pct", VNumber (Finite (8592 # 100))) ];
     AnalysisDialog.summary := "## Executive Summary" |}.

Definition longestCall : props :=
  [ ("duration", VString "0 days 00:29:46");
    ("from_name", VString "A");
    ("to_name", VString "B") ].

(** A [longest] that a JSON document can hold and whose [duration] does
    not convert to a string. *)
Definition longestUnconvertible : props :=
  [ ("duration", VObject [ ("toString", VNumber (Finite 1)) ]);
    ("from_name", VString "A");
    ("to_name", VString "B") ].

Definition interval (datetime : string) : Interval :=
  {| datetime := datetime;
     answered_calls := VString "12";
     abandoned_calls := VString "3" |}.

Definition queueReport (peak worst : string) (avg_handle : number)
  : QueueReportJSON :=
  {| queue_metrics :=
       {| total_offered := VString "1634";
          total_answered := VString "1404";
          total_abandoned := VString "168";
          total_overflowed := VString "62";
          abandonment_rate := Finite (1028 # 100);
          answer_rate := Finite (8592 # 100);
          overflow_rate := Finite (379 # 100);
          avg_wait_time_sec := Finite 12;
          max_wait_time_sec := Finite 300;
          avg_handle_time_sec := avg_handle;
          peak_interval := interval peak;
          worst_abandon_interval := interval worst |};
     service_trends := 0%nat;
     summary := "## Executive Summary" |}.

Definition bucket (hour : Z) (offered : Z) (rate : Q) : HourBucket :=
  {| HOUR := hour;
     ANSWERED_CALLS := Finite 0;
     ABANDONED_CALLS := Finite 0;
     OVERFLOWED_CALLS := Finite 0;
     TOTAL_OFFERED := Finite (inject_Z offered);
     ABANDONMENT_RATE := Finite rate |}.

(** The unsorted buckets of the example: hours 14, 9 and 12. *)
Definition trends : list HourBucket :=
  [ bucket 14 120 (5 # 1); bucket 9 80 (12 # 1); bucket 12 100 (7 # 1) ].

Definition store : heap := fun r => if Nat.eqb r 0 then trends else [].

Definition charts : QueueCharts.QueueChartsComponent :=
  {| QueueCharts.report :=
       queueReport "2025-07-09T13:30:00" "2025-07-16T11:30:00" (Finite 17);
     QueueCharts.hourlyCanvas_getContext_2d := Some QueueCharts.Context2D |}.

End Sample.

(** ** Label pipe ([MetricLabelPipe.transform]) *)

Module MetricLabelPipe.
Import Js.

Definition map : props :=
  [ ("total", VString "Total"); ("inbound", VString "Inbound");
    ("outbound", VString "Outbound");
    ("answered_pct", VString "Answered %"); ("missed_pct", VString "Missed %");
    ("vm_pct", VString "VM %"); ("blocked_pct", VString "Blocked %");
    ("avg_dur", VString "Avg"); ("median_dur", VString "Median");
    ("talk_time", VString "Talk"); ("longest", VString "Longest") ].

(** The left operand of [??] is kept unless it is undefined or null. *)
Definition nullish (v : value) : bool :=
  match v with
  | VUndefined => true
  | VNull => true
  | _ => false
  end.

(** [this.map[key] ?? key]; declared a string, what the evaluation yields
    is a [value]. *)
Definition transform (key : string) : value :=
  let v := Get map key in
  if nullish v then VString key else v.

(** An entry whose label is a string that the pipe leaves unchanged. *)
Definition label_stable (entry : string * value) : bool :=
  match snd entry with
  | VString l =>
      match transform l with
      | VString l' => String.eqb l l'
      | _ => false
      end
  | _ => false
  end.

End MetricLabelPipe.

(** ** Table ([SimpleTableComponent.headers]) *)

Module SimpleTable.
Import Js.

(** [Object.keys(v)]: the own enumerable string keys, after [ToObject],
    which throws on undefined and null. *)
Definition Object_keys (v : value) : completion (list string) :=
  match v with
  | VUndefined => Throw (TypeError "Cannot convert undefined or null to object")
  | VNull => Throw (TypeError "Cannot convert undefined or null to object")
  | _ => Normal (keys (spread v))
  end.

(** [this.rows.length ? Object.keys(this.rows[0]) : []] *)
Definition headers (rows : list value) : completion (list string) :=
  if negb (Nat.eqb (List.length rows) 0)
  then Object_keys (nth 0 rows VUndefined)
  else Normal [].

End SimpleTable.

(** ** Agent chart ([QueueChartsComponent.createAgentChart]) *)

Module AgentChart.
Import JsString Js.

(** A row of [agent_performance.all_agents]; the key ['ANSWERED CALLS'] is
    written with an underscore. *)
Record AgentStat : Type := {
  AGENT : string;
  ANSWERED_CALLS : number;
  TOTAL_HANDLE_SEC : number;
  AVG_HANDLE_SEC : number;
  MAX_HANDLE_SEC : number;
  AVG_HANDLE_TIME : number;
  EFFICIENCY : number
}.

Record Point : Type := { x : number; y : number }.

(** What the tooltip callback reads of its argument. *)
Record TooltipItem : Type := { dataIndex : nat; parsed : Point }.

(** The configuration handed to [new Chart]: the series, and the [label]
    callback of the tooltip; the colours, radii and axis titles are
    literals and are left out. *)
Record ChartConfiguration : Type := {
  type : string;
  label : string;
  data : list Point;
  tooltip_label : TooltipItem -> completion string
}.

Definition createAgentChart `{Host}
  (agentCanvas_getContext_2d : option QueueCharts.CanvasRenderingContext2D)
  (all_agents : list AgentStat) : option ChartConfiguration :=
  match agentCanvas_getContext_2d with
  | None => None
  | Some ctx =>
      let agents := all_agents in
      Some
        {| type := "scatter";
           label := "Agent Performance";
           data :=
             List.map (fun agent => {| x := ANSWERED_CALLS agent;
                                       y := EFFICIENCY agent |}) agents;
           tooltip_label := fun context =>
             match nth_error agents (dataIndex context) with
             | None =>
                 Throw (TypeError
                   "Cannot read properties of undefined (reading 'AGENT')")
             | Some agent =>
                 Normal
                   (AGENT agent ++ ": " ++ Number_toString (x (parsed context)) ++
                    " calls, " ++ toFixed (y (parsed context)) 2 ++
                    " efficiency")
             end |}
  end.

End AgentChart.

(** ** More sample data *)

Module SampleMore.
Import Js.

Definition agents : list AgentChart.AgentStat :=
  [ {| AgentChart.AGENT := "Ana";
       AgentChart.ANSWERED_CALLS := Finite 120;
       AgentChart.TOTAL_HANDLE_SEC := Finite 32040;
       AgentChart.AVG_HANDLE_SEC := Finite 267;
       AgentChart.MAX_HANDLE_SEC := Finite 900;
       AgentChart.AVG_HANDLE_TIME := Finite 267;
       AgentChart.EFFICIENCY := Finite (45 # 100) |};
    {| AgentChart.AGENT := "Bo";
       AgentChart.ANSWERED_CALLS := Finite 80;
       AgentChart.TOTAL_HANDLE_SEC := Finite 16000;
       AgentChart.AVG_HANDLE_SEC := Finite 200;
       AgentChart.MAX_HANDLE_SEC := Finite 600;
       AgentChart.AVG_HANDLE_TIME := Finite 200;
       AgentChart.EFFICIENCY := Finite (2 # 5) |} ].

(** A table of two rows with different keys. *)
Definition rows : list value :=
  [ VObject [("AGENT", VString "Ana"); ("ANSWERED CALLS", VNumber (Finite 120))];
    VObject [("AGENT", VString "Bo")] ].

End SampleMore.

(** * Part II: properties *)

(** ** Strings *)

Module JsStringFacts.
Import JsString.

Lemma append_assoc (a b c : string) : (a ++ b) ++ c = a ++ (b ++ c).
Proof. induction a as [|x a IH]; simpl; [reflexivity | now rewrite IH]. Qed.

Lemma length_append (a b : string) :
  String.length (a ++ b) = (String.length a + String.length b)%nat.
Proof. induction a as [|x a IH]; simpl; [reflexivity | now rewrite IH]. Qed.

(** Equal-length prefixes of equal strings are equal. *)
Lemma append_inj_length (a b c d : string) :
  a ++ b = c ++ d -> String.length a = String.length c -> a = c /\ b = d.
Proof.
  revert c. induction a as [|x a IH]; intros [|y c]; simpl; intros H L;
    try discriminate.
  - split; [reflexivity | assumption].
  - injection H as -> H. injection L as L.
    destruct (IH c H L) as [-> ->]. split; reflexivity.
Qed.

Lemma every_append p a b : every p (a ++ b) = every p a && every p b.
Proof.
  induction a as [|x a IH]; simpl; [reflexivity|].
  now rewrite IH, andb_assoc.
Qed.

Lemma dropWhile_every p a b :
  every p a = true -> dropWhile p (a ++ b) = dropWhile p b.
Proof.
  induction a as [|x a IH]; simpl; [reflexivity|].
  intros H. apply andb_true_iff in H as [Hx Ha]. now rewrite Hx, IH.
Qed.

Lemma dropWhile_stop p c s :
  p c = false -> dropWhile p (String c s) = String c s.
Proof. intros H. simpl. now rewrite H. Qed.

Lemma last_is_snoc p q c : last_is p (q ++ String c "") = p c.
Proof.
  induction q as [|a q IH]; [reflexivity|].
  simpl. destruct (q ++ String c "") eqn:E; [|exact IH].
  destruct q; discriminate.
Qed.

Lemma last_char (s : string) : s <> "" -> exists p c, s = p ++ String c "".
Proof.
  induction s as [|a s IH]; [congruence|]. intros _.
  destruct s as [|b s].
  - exists "", a. reflexivity.
  - destruct IH as (p & c & E); [discriminate|].
    exists (String a p), c. simpl. now rewrite E.
Qed.

Lemma substring_prefix (a b : string) :
  substring 0 (String.length a) (a ++ b) = a.
Proof.
  induction a as [|x a IH]; simpl.
  - destruct b; reflexivity.
  - now rewrite IH.
Qed.

Lemma consumed_append (a b : string) : consumed (a ++ b) b = a.
Proof.
  unfold consumed. rewrite length_append.
  replace (String.length a + String.length b - String.length b)%nat
    with (String.length a) by lia.
  apply substring_prefix.
Qed.

Lemma padStart_long n fill s :
  (n <= String.length s)%nat -> padStart n fill s = s.
Proof. intros H. unfold padStart. apply Nat.leb_le in H. now rewrite H. Qed.

Lemma filler_one k c (p : ascii -> bool) :
  String.length (filler k (String c "") (String c "")) = k /\
  (p c = true -> every p (filler k (String c "") (String c "")) = true).
Proof.
  assert (G : forall k r, r = "" \/ r = String c "" ->
            String.length (filler k (String c "") r) = k /\
            (p c = true -> every p (filler k (String c "") r) = true)).
  { clear k. induction k as [|k IH]; intros r Hr; simpl; [auto|].
    destruct Hr as [-> | ->]; simpl;
      (destruct (IH "") as [L E]; [now left|]);
      (split; [now rewrite L | intros Hc; now rewrite Hc, E]). }
  apply G. now right.
Qed.

Lemma padStart_length n c s :
  (n <= String.length (padStart n (String c "") s))%nat.
Proof.
  unfold padStart. destruct (n <=? String.length s)%nat eqn:E.
  - now apply Nat.leb_le.
  - apply Nat.leb_gt in E.
    rewrite length_append, (proj1 (filler_one _ c (fun _ => true))). lia.
Qed.

Lemma padStart_every p n c s :
  p c = true -> every p s = true -> every p (padStart n (String c "") s) = true.
Proof.
  intros Hc Hs. unfold padStart.
  destruct (n <=? String.length s)%nat; [assumption|].
  now rewrite every_append, (proj2 (filler_one _ c p) Hc), Hs.
Qed.

Lemma padStart_nonempty n fill s : s <> "" -> padStart n fill s <> "".
Proof.
  intros Hs. unfold padStart.
  destruct (n <=? String.length s)%nat; [assumption|].
  destruct (filler _ fill fill); simpl; [assumption | discriminate].
Qed.

End JsStringFacts.

(** ** Backtracking matcher *)

Module RegExpFacts.
Import JsString JsStringFacts RegExp.

Section Pieces.
Context {R : Type}.
Implicit Types (k run : cont R).

(** A continuation that cannot start on a character of class [p] makes
    the backtracking of [p*] useless: only the longest run can succeed. *)
Lemma star_longest (p : ascii -> bool) k :
  (forall c s, p c = true -> k (String c s) = None) ->
  forall s, star p k s = k (dropWhile p s).
Proof.
  intros Hk. induction s as [|c s IH]; simpl; [reflexivity|].
  destruct (p c) eqn:E; [|reflexivity].
  rewrite IH. destruct (k (dropWhile p s)); [reflexivity|].
  now apply Hk.
Qed.

Lemma search_here run s r : run s = Some r -> search run s = Some r.
Proof. intros H. destruct s; simpl; now rewrite H. Qed.

Lemma search_some run pre w :
  run w <> None -> search run (pre ++ w) <> None.
Proof.
  intros H. induction pre as [|c pre IH]; simpl.
  - destruct w; simpl; destruct (run _); congruence.
  - destruct (run (String c (pre ++ w))); [discriminate | exact IH].
Qed.

(** What a successful search found: the start position, and the fact
    that the position just before it does not match. *)
Lemma search_leftmost run s r :
  search run s = Some r ->
  exists pre w, s = pre ++ w /\ run w = Some r /\
    forall p c, pre = p ++ String c "" -> run (String c w) = None.
Proof.
  induction s as [|a s IH]; simpl.
  - destruct (run "") eqn:E; [|discriminate].
    intros [= ->]. exists "", "". repeat split; auto.
    intros [|? ?] c; simpl; discriminate.
  - destruct (run (String a s)) eqn:E.
    + intros [= ->]. exists "", (String a s). repeat split; auto.
      intros [|? ?] c; simpl; discriminate.
    + intros H. destruct (IH H) as (pre & w & -> & Hw & Hleft).
      exists (String a pre), w. repeat split; auto.
      intros p c Hp. destruct p as [|b p]; simpl in Hp.
      * injection Hp as -> Hpre. subst pre. exact E.
      * injection Hp as -> Hpre. eapply Hleft; eauto.
Qed.

(** A match at [w] is the one found when no earlier start position
    matches. *)
Lemma search_skip run pre w r :
  run w = Some r ->
  (forall p1 p2, pre = p1 ++ p2 -> p2 <> "" -> run (p2 ++ w) = None) ->
  search run (pre ++ w) = Some r.
Proof.
  intros Hw. induction pre as [|a pre IH]; intros Hearlier; simpl.
  - now apply search_here.
  - assert (E : run (String a (pre ++ w)) = None)
      by (apply (Hearlier "" (String a pre) eq_refl); discriminate).
    rewrite E. apply IH. intros p1 p2 -> Hp2.
    apply (Hearlier (String a p1) p2); [reflexivity | assumption].
Qed.

End Pieces.

Lemma one_cons {R} p (k : cont R) c s :
  one p k (String c s) = if p c then k s else None.
Proof. reflexivity. Qed.

Lemma isChar_refl x : isChar x x = true.
Proof. apply Ascii.eqb_refl. Qed.

Lemma digit_not_colon c : isDigit c = true -> isChar ":" c = false.
Proof.
  intros H. unfold isChar. destruct (Ascii.eqb ":" c) eqn:E; [|reflexivity].
  apply Ascii.eqb_eq in E. subst c. discriminate H.
Qed.

Lemma isChar_eq x c : isChar x c = true -> c = x.
Proof. unfold isChar. intros H. apply Ascii.eqb_eq in H. now subst. Qed.

End RegExpFacts.

(** ** Duration pipe *)

Module DurationPipeFacts.
Import JsString JsStringFacts RegExp RegExpFacts DurationPipe.

Lemma dropWhile_split p s :
  exists h, s = h ++ dropWhile p s /\ every p h = true.
Proof.
  induction s as [|c s (h & Hs & Hh)]; simpl.
  - exists "". split; reflexivity.
  - destruct (p c) eqn:E.
    + exists (String c h). simpl. rewrite E, Hh. split; [now f_equal | reflexivity].
    + exists "". split; reflexivity.
Qed.

Lemma no_trailing_digit_iff pre :
  no_trailing_digit pre <->
  forall p c, pre = p ++ String c "" -> isDigit c = false.
Proof.
  unfold no_trailing_digit. split.
  - intros H p c ->. now rewrite last_is_snoc in H.
  - intros H. destruct pre as [|a pre]; [reflexivity|].
    destruct (last_char (String a pre)) as (p & c & E); [discriminate|].
    rewrite E, last_is_snoc. now apply (H p c).
Qed.

Lemma two_digits_inv mm :
  two_digits mm ->
  exists a b, mm = String a (String b "") /\ isDigit a = true /\ isDigit b = true.
Proof.
  intros [L D]. destruct mm as [|a [|b [|? ?]]]; try discriminate L.
  unfold digits in D. simpl in D.
  apply andb_true_iff in D as [Da D]. apply andb_true_iff in D as [Db _].
  exists a, b. auto.
Qed.

(** The continuation of the hours group never starts on a digit. *)
Ltac colon_cont :=
  let c := fresh "c" in let s := fresh "s" in let H := fresh "H" in
  intros c s H; unfold one; now rewrite (digit_not_colon c H).

(** The pattern matches a string of the shape at its start, and captures
    its three parts. *)
Lemma exec_at_hms h mm ss :
  is_hms h mm ss ->
  exec_at (hms h mm ss) =
    Some {| hours := h; minutes := mm; seconds := ss |}.
Proof.
  intros (Hne & Hd & Hm & Hs).
  destruct (two_digits_inv mm Hm) as (m1 & m2 & -> & Dm1 & Dm2).
  destruct (two_digits_inv ss Hs) as (s1 & s2 & -> & Ds1 & Ds2).
  destruct h as [|c h]; [congruence|].
  unfold digits in Hd. simpl in Hd. apply andb_true_iff in Hd as [Dc Dh].
  set (mmss := String m1 (String m2 (String ":" (String s1 (String s2 ""))))).
  assert (E : hms (String c h) (String m1 (String m2 "")) (String s1 (String s2 ""))
              = String c (h ++ String ":" mmss)) by reflexivity.
  rewrite E. unfold exec_at, plus.
  rewrite one_cons, Dc, star_longest by colon_cont.
  rewrite (dropWhile_every _ _ _ Dh), dropWhile_stop by reflexivity.
  rewrite one_cons, isChar_refl. unfold mmss. cbn [rep].
  repeat first [rewrite one_cons | progress cbv beta].
  rewrite Dm1, Dm2, isChar_refl, Ds1, Ds2.
  cbn [eoi]. f_equal. f_equal.
  apply (consumed_append (String c h)).
Qed.

(** Conversely, a match at the start means the string has the shape. *)
Lemma exec_at_inv s g :
  exec_at s = Some g ->
  exists h mm ss, s = hms h mm ss /\ is_hms h mm ss /\
    g = {| hours := h; minutes := mm; seconds := ss |}.
Proof.
  intros H. pose proof H as H0.
  unfold exec_at, plus in H.
  destruct s as [|c s]; [discriminate H|].
  rewrite one_cons in H.
  destruct (isDigit c) eqn:Dc; [|discriminate].
  rewrite star_longest in H by colon_cont.
  destruct (dropWhile_split isDigit s) as (h & Hs & Dh).
  destruct (dropWhile isDigit s) as [|x r]; [discriminate H|].
  rewrite one_cons in H. destruct (isChar ":" x) eqn:Ex; [|discriminate].
  apply isChar_eq in Ex. subst x. cbn [rep] in H.
  destruct r as [|m1 r]; [discriminate H|]. rewrite one_cons in H.
  destruct (isDigit m1) eqn:Dm1; [|discriminate].
  destruct r as [|m2 r]; [discriminate H|]. rewrite one_cons in H.
  destruct (isDigit m2) eqn:Dm2; [|discriminate].
  destruct r as [|y r]; [discriminate H|]. rewrite one_cons in H.
  destruct (isChar ":" y) eqn:Ey; [|discriminate].
  apply isChar_eq in Ey. subst y.
  destruct r as [|s1 r]; [discriminate H|]. rewrite one_cons in H.
  destruct (isDigit s1) eqn:Ds1; [|discriminate].
  destruct r as [|s2 r]; [discriminate H|]. rewrite one_cons in H.
  destruct (isDigit s2) eqn:Ds2; [|discriminate].
  destruct r as [|? ?]; [|discriminate H].
  clear H.
  assert (Shape : is_hms (String c h) (String m1 (String m2 "")) (String s1 (String s2 ""))).
  { repeat split; try discriminate; unfold digits; simpl;
      now rewrite ?Dc, ?Dh, ?Dm1, ?Dm2, ?Ds1, ?Ds2. }
  exists (String c h), (String m1 (String m2 "")), (String s1 (String s2 "")).
  assert (E : String c s = hms (String c h) (String m1 (String m2 "")) (String s1 (String s2 ""))).
  { unfold hms. simpl. f_equal. exact Hs. }
  split; [exact E|]. split; [exact Shape|].
  rewrite E in H0. rewrite (exec_at_hms _ _ _ Shape) in H0. now injection H0.
Qed.

Lemma hms_length h mm ss :
  two_digits mm -> two_digits ss ->
  String.length (hms h mm ss) = (String.length h + 6)%nat.
Proof.
  intros [Lm _] [Ls _]. unfold hms.
  rewrite !length_append, Lm, Ls. simpl. lia.
Qed.

Lemma hms_cons c h mm ss : String c (hms h mm ss) = hms (String c h) mm ss.
Proof. reflexivity. Qed.

(** A start position inside a prefix that does not end with a digit
    cannot match: the hours would have to run over that last character. *)
Lemma exec_at_earlier p2 h mm ss :
  is_hms h mm ss -> p2 <> "" ->
  (forall p c, p2 = p ++ String c "" -> isDigit c = false) ->
  exec_at (p2 ++ hms h mm ss) = None.
Proof.
  intros Shape Hne Hlast.
  destruct (exec_at (p2 ++ hms h mm ss)) as [g|] eqn:E; [|reflexivity].
  exfalso.
  destruct (exec_at_inv _ _ E) as (h' & mm' & ss' & Eq & Shape' & _).
  pose proof Shape as (_ & _ & Hm & Hs).
  pose proof Shape' as (_ & Dh' & Hm' & Hs').
  assert (L : String.length (p2 ++ h) = String.length h').
  { apply (f_equal String.length) in Eq.
    rewrite length_append, !hms_length in Eq by assumption.
    rewrite length_append. lia. }
  unfold hms in Eq. rewrite <- append_assoc in Eq.
  destruct (append_inj_length _ _ _ _ Eq L) as [Eh _].
  destruct (last_char p2 Hne) as (p & c & Ep).
  pose proof (Hlast p c Ep) as Dc.
  rewrite <- Eh, Ep in Dh'. unfold digits in Dh'.
  rewrite !every_append in Dh'. simpl in Dh'. rewrite Dc in Dh'.
  rewrite andb_false_r in Dh'. simpl in Dh'. discriminate.
Qed.

Lemma no_trailing_digit_suffix p1 p2 :
  no_trailing_digit (p1 ++ p2) ->
  forall p c, p2 = p ++ String c "" -> isDigit c = false.
Proof.
  intros H p c ->. apply no_trailing_digit_iff with (p := p1 ++ p) (c := c) in H;
    [assumption | now rewrite append_assoc].
Qed.

(** The match found in a string that ends with the shape, when the hours
    are a whole run of digits. *)
Lemma match_hms pre h mm ss :
  is_hms h mm ss -> no_trailing_digit pre ->
  match_ (pre ++ hms h mm ss) =
    Some {| hours := h; minutes := mm; seconds := ss |}.
Proof.
  intros Shape Hpre. unfold match_. apply search_skip.
  - now apply exec_at_hms.
  - intros p1 p2 -> Hne. apply exec_at_earlier; auto.
    now apply (no_trailing_digit_suffix p1).
Qed.

(** What a match tells about the input. *)
Lemma match_inv v g :
  match_ v = Some g ->
  exists pre h mm ss, v = pre ++ hms h mm ss /\ is_hms h mm ss /\
    no_trailing_digit pre /\
    g = {| hours := h; minutes := mm; seconds := ss |}.
Proof.
  intros H. destruct (search_leftmost _ _ _ H) as (pre & w & -> & Hw & Hleft).
  destruct (exec_at_inv _ _ Hw) as (h & mm & ss & -> & Shape & ->).
  exists pre, h, mm, ss.
  split; [reflexivity|]. split; [exact Shape|]. split; [|reflexivity].
  apply no_trailing_digit_iff.
  intros p c Ep. specialize (Hleft p c Ep).
  destruct (isDigit c) eqn:Dc; [|reflexivity].
  rewrite hms_cons, exec_at_hms in Hleft; [discriminate|].
  destruct Shape as (? & Dh & ? & ?).
  split; [discriminate|]. split; [|split; assumption].
  unfold digits in *. simpl. now rewrite Dc.
Qed.

(** No match exactly when the input does not end with the shape. *)
Lemma match_none v :
  match_ v = None <->
  ~ (exists pre h mm ss, v = pre ++ hms h mm ss /\ is_hms h mm ss).
Proof.
  split.
  - intros H (pre & h & mm & ss & -> & Shape).
    apply (search_some exec_at pre (hms h mm ss)); [|exact H].
    now rewrite exec_at_hms.
  - intros H. destruct (match_ v) as [g|] eqn:E; [|reflexivity].
    exfalso. apply H. destruct (match_inv _ _ E) as (pre & h & mm & ss & ? & ? & _).
    now exists pre, h, mm, ss.
Qed.

Lemma pad_hours h :
  h <> "" -> digits h = true ->
  padStart 2 "0" h <> "" /\ digits (padStart 2 "0" h) = true /\
  (2 <= String.length (padStart 2 "0" h))%nat /\
  padStart 2 "0" (padStart 2 "0" h) = padStart 2 "0" h.
Proof.
  intros Hne Hd. repeat split.
  - now apply padStart_nonempty.
  - now apply padStart_every.
  - apply padStart_length.
  - apply padStart_long, padStart_length.
Qed.

(** Padding adds a zero to a one-digit hour and nothing to a longer one. *)
Lemma pad_hours_cases h :
  h <> "" ->
  (String.length h = 1%nat /\ padStart 2 "0" h = "0" ++ h) \/
  ((2 <= String.length h)%nat /\ padStart 2 "0" h = h).
Proof.
  intros Hne. destruct h as [|a [|b h]]; [congruence | left | right]; split;
    try reflexivity. simpl. lia.
Qed.

(** C6. The duration formatter looks for a trailing
    [<hours>:<minutes>:<seconds>] with hours of one or more digits and
    minutes and seconds of exactly two digits. On a match (the hours being
    the whole run of digits before the first colon) it returns the match
    with the hours left-padded with zeros to at least two characters; when
    the input does not end with the pattern it returns the input unchanged.
    Every input is in one of the two cases, so the function is total and
    never fails. *)
Theorem transform_spec :
  (forall pre h mm ss,
      is_hms h mm ss -> no_trailing_digit pre ->
      transform (pre ++ hms h mm ss) = hms (padStart 2 "0" h) mm ss /\
      (2 <= String.length (padStart 2 "0" h))%nat /\
      ((String.length h = 1%nat /\ padStart 2 "0" h = "0" ++ h) \/
       ((2 <= String.length h)%nat /\ padStart 2 "0" h = h))) /\
  (forall v,
      ~ (exists pre h mm ss, v = pre ++ hms h mm ss /\ is_hms h mm ss) ->
      transform v = v) /\
  (forall v,
      (exists pre h mm ss,
          v = pre ++ hms h mm ss /\ is_hms h mm ss /\ no_trailing_digit pre) \/
      ~ (exists pre h mm ss, v = pre ++ hms h mm ss /\ is_hms h mm ss)) /\
  transform "0 days 00:03:15" = "00:03:15" /\
  transform "1:05:09" = "01:05:09" /\
  transform "not-a-duration" = "not-a-duration".
Proof.
  split; [|split; [|split]].
  - intros pre h mm ss Shape Hpre. split; [|split].
    + unfold transform. now rewrite (match_hms pre h mm ss Shape Hpre).
    + apply padStart_length.
    + apply pad_hours_cases, Shape.
  - intros v Hv. unfold transform. apply match_none in Hv. now rewrite Hv.
  - intros v. destruct (match_ v) as [g|] eqn:E.
    + left. destruct (match_inv _ _ E) as (pre & h & mm & ss & ? & ? & ? & _).
      now exists pre, h, mm, ss.
    + right. now apply match_none.
  - repeat split; reflexivity.
Qed.

Lemma transform_spec_witness :
  transform ("0 days " ++ hms "00" "03" "15") = hms (padStart 2 "0" "00") "03" "15".
Proof.
  apply (proj1 transform_spec "0 days " "00" "03" "15").
  - repeat split; try reflexivity. discriminate.
  - reflexivity.
Defined.

(** C7. The duration formatter is idempotent. *)
Theorem transform_idempotent (x : string) :
  transform (transform x) = transform x.
Proof.
  destruct (match_ x) as [g|] eqn:E.
  - destruct (match_inv _ _ E) as (pre & h & mm & ss & _ & Shape & _ & ->).
    destruct Shape as (Hne & Hd & Hm & Hs).
    destruct (pad_hours h Hne Hd) as (Pne & Pd & _ & Pid).
    assert (T : transform x = "" ++ hms (padStart 2 "0" h) mm ss)
      by (unfold transform; now rewrite E).
    rewrite T. unfold transform.
    rewrite match_hms;
      [|exact (conj Pne (conj Pd (conj Hm Hs)))|reflexivity].
    cbn [hours minutes seconds]. now rewrite Pid.
  - assert (T : transform x = x) by (unfold transform; now rewrite E).
    rewrite T. exact T.
Qed.

End DurationPipeFacts.

(** ** Objects *)

Module JsFacts.
Import JsString JsStringFacts Js.

Lemma lookup_Set_same o k v : lookup k (Set_ o k v) = Some v.
Proof.
  induction o as [|[k' v'] o IH]; simpl.
  - now rewrite String.eqb_refl.
  - destruct (String.eqb k' k) eqn:E; simpl; now rewrite E.
Qed.

Lemma lookup_Set_other o k v k' :
  k' <> k -> lookup k' (Set_ o k v) = lookup k' o.
Proof.
  intros Hk. induction o as [|[k0 v0] o IH]; simpl.
  - destruct (String.eqb k k') eqn:E; [|reflexivity].
    apply String.eqb_eq in E. congruence.
  - destruct (String.eqb k0 k) eqn:E; simpl.
    + apply String.eqb_eq in E. subst k0.
      destruct (String.eqb k k') eqn:E'; [|reflexivity].
      apply String.eqb_eq in E'. congruence.
    + now rewrite IH.
Qed.

(** Writing an own property keeps the order of the keys. *)
Lemma keys_Set_own o k v v0 :
  lookup k o = Some v0 -> keys (Set_ o k v) = keys o.
Proof.
  unfold keys. induction o as [|[k' v'] o IH]; simpl; [discriminate|].
  destruct (String.eqb k' k) eqn:E; simpl; [reflexivity|].
  intros H. now rewrite IH.
Qed.

Lemma Get_own o k v : lookup k o = Some v -> Get o k = v.
Proof. unfold Get. now intros ->. Qed.

Lemma lookup_In k o v : lookup k o = Some v -> In (k, v) o.
Proof.
  induction o as [|[k' v'] o IH]; simpl; [discriminate|].
  destruct (String.eqb k' k) eqn:E.
  - apply String.eqb_eq in E. intros [= ->]. left. now subst.
  - intros H. right. auto.
Qed.

Lemma prefix_iff t s : prefix t s = true <-> exists b, s = t ++ b.
Proof.
  revert s. induction t as [|c t IH]; intros s.
  - split; [intros _; now exists s | intros _; now destruct s].
  - destruct s as [|d s]; simpl;
      [split; [discriminate | intros [b Hb]; discriminate]|].
    destruct (ascii_dec c d) as [->|Hcd].
    + rewrite IH. split; intros [b Hb]; exists b; [now rewrite Hb | now injection Hb].
    + split; [discriminate | intros [b Hb]; congruence].
Qed.

(** [includes] finds exactly the substrings. *)
Lemma includes_iff s t : includes s t = true <-> exists a b, s = a ++ t ++ b.
Proof.
  induction s as [|c s IH].
  - change (includes "" t) with (prefix t "" || false).
    rewrite orb_false_r, prefix_iff. split.
    + intros [b Hb]. now exists "", b.
    + intros (a & b & H). destruct a; [now exists b|discriminate].
  - change (includes (String c s) t) with (prefix t (String c s) || includes s t).
    rewrite orb_true_iff, prefix_iff, IH. split.
    + intros [[b Hb] | (a & b & Hab)].
      * now exists "", b.
      * exists (String c a), b. simpl. now rewrite Hab.
    + intros (a & b & H). destruct a as [|d a].
      * left. now exists b.
      * right. exists a, b. simpl in H. now injection H.
Qed.

End JsFacts.

(** ** Call-report dialog *)

Module AnalysisDialogFacts.
Import JsString JsStringFacts Js JsFacts AnalysisDialog.



(** The formatting branch, on an object [longest]. *)
Lemma constructor_object `{Host} (data : ReportJSON) (o fields : props) :
  kpi data = VObject o ->
  lookup "longest" o = Some (VObject fields) ->
  constructor data =
    (duration <- ToString (Get fields "duration") ;;
     from_name <- ToString (Get fields "from_name") ;;
     to_name <- ToString (Get fields "to_name") ;;
     Normal
       {| displayKpi :=
            Set_ o "longest"
              (VString (duration ++ " (" ++ from_name ++ " → " ++ to_name ++ ")"));
          summaryHtml :=
            bypassSecurityTrustHtml
              (marked_parse
                 (if negb (String.eqb (summary data) "") then summary data
                  else "")) |}).
Proof.
  intros Hkpi Hl. unfold constructor. rewrite Hkpi. cbn [GetV bind spread].
  rewrite (Get_own _ _ _ Hl).
  cbn [typeof ToBoolean String.eqb Ascii.eqb Bool.eqb andb GetV bind].
  destruct (ToString (Get fields "duration")); [|reflexivity].
  destruct (ToString (Get fields "from_name")); [|reflexivity].
  destruct (ToString (Get fields "to_name")); reflexivity.
Qed.

(** When one of the three fields of an object [longest] does not convert
    to a string, the builder throws. *)
Lemma constructor_field_throws `{Host}
  (data : ReportJSON) (o fields : props) (k : string) (e : error) :
  kpi data = VObject o ->
  lookup "longest" o = Some (VObject fields) ->
  In k ["duration"; "from_name"; "to_name"] ->
  ToString (Get fields k) = Throw e ->
  exists e', constructor data = Throw e'.
Proof.
  intros Hkpi Hl Hk T. rewrite (constructor_object data o fields Hkpi Hl).
  destruct Hk as [<- | [<- | [<- | []]]].
  - rewrite T. eexists. reflexivity.
  - destruct (ToString (Get fields "duration")); [|eexists; reflexivity].
    rewrite T. eexists. reflexivity.
  - destruct (ToString (Get fields "duration")); [|eexists; reflexivity].
    destruct (ToString (Get fields "from_name")); [|eexists; reflexivity].
    rewrite T. eexists. reflexivity.
Qed.




(** The scalar example of the specification: [kpi.longest = 42]. *)
Example constructor_longest_42 :
  exists c,
    @constructor Sample.host (Sample.callReport (VNumber (Finite 42))) = Normal c /\
    lookup "longest" (displayKpi c) = Some (VNumber (Finite 42)).
Proof. eexists. split; reflexivity. Qed.

(** C9. When [kpi.longest] is null the builder completes normally and
    [displayKpi] is the plain copy, its [longest] entry still null: null is
    of object type but not truthy, so the formatting branch, which reads
    three properties of [longest], is not taken. *)
Theorem constructor_longest_null `{Host} (data : ReportJSON) (o : props) :
  kpi data = VObject o ->
  lookup "longest" o = Some VNull ->
  String.eqb (typeof VNull) "object" = true /\
  ToBoolean VNull = false /\
  (exists e, GetV VNull "duration" = Throw e) /\
  exists c,
    constructor data = Normal c /\
    displayKpi c = o /\
    lookup "longest" (displayKpi c) = Some VNull.
Proof.
  intros Hkpi Hl. split; [reflexivity|]. split; [reflexivity|].
  split; [eexists; reflexivity|].
  unfold constructor. rewrite Hkpi. cbn [GetV bind spread].
  rewrite (Get_own _ _ _ Hl). cbn.
  eexists. split; [reflexivity|]. cbn [displayKpi]. auto.
Qed.

Lemma constructor_longest_null_witness :
  exists c,
    @constructor Sample.host (Sample.callReport VNull) = Normal c /\
    lookup "longest" (displayKpi c) = Some VNull.
Proof.
  destruct (@constructor_longest_null Sample.host (Sample.callReport VNull) _
              eq_refl eq_refl) as (_ & _ & _ & c & Hc & _ & Hn).
  exists c. split; assumption.
Defined.

End AnalysisDialogFacts.

(** ** Icon resolvers *)

Module IconFacts.
Import JsString JsStringFacts Js JsFacts.

Lemma icons_truthy_lookup mapping k v :
  IconSpec.icons_truthy mapping = true -> lookup k mapping = Some v -> ToBoolean v = true.
Proof.
  intros Hm Hl. apply lookup_In in Hl.
  unfold IconSpec.icons_truthy in Hm. rewrite forallb_forall in Hm.
  exact (Hm _ Hl).
Qed.

(** The body shared by the two resolvers agrees with the specification on
    every key that does not name, once lower-cased, a property that plain
    objects inherit. *)
Lemma resolver_spec (mapping : props) (kpiKey : string) :
  IconSpec.icons_truthy mapping = true ->
  lookup (toLowerCase kpiKey) ObjectPrototype = None ->
  (let lowerKey := toLowerCase kpiKey in
   if ToBoolean (Get mapping lowerKey) then Get mapping lowerKey
   else
     match find (fun entry => includes lowerKey (fst entry)) mapping with
     | Some (_, icon) => icon
     | None => VString "insights"
     end) = IconSpec.icon mapping kpiKey.
Proof.
  intros Hm Hp. unfold IconSpec.icon. cbv zeta. unfold Get. rewrite Hp.
  destruct (lookup (toLowerCase kpiKey) mapping) as [v|] eqn:E.
  - now rewrite (icons_truthy_lookup _ _ _ Hm E).
  - reflexivity.
Qed.

(** The lower-cased names that reach [Object.prototype]. *)
Lemma inherited_lower k :
  lookup (toLowerCase k) ObjectPrototype <> None ->
  toLowerCase k = "constructor" \/ toLowerCase k = "__proto__".
Proof.
  assert (L : forall c, lowerChar (lowerChar c) = lowerChar c).
  { intros c. destruct c as [[] [] [] [] [] [] [] []]; reflexivity. }
  assert (I : forall s, toLowerCase (toLowerCase s) = toLowerCase s).
  { induction s as [|c s IH]; simpl; [reflexivity | now rewrite L, IH]. }
  intros H. set (l := toLowerCase k) in *.
  assert (Il : toLowerCase l = l) by apply I.
  clearbody l. unfold ObjectPrototype, builtin in H. cbn [lookup] in H.
  revert H.
  repeat match goal with
    | |- context [String.eqb ?a l] =>
        destruct (String.eqb_spec a l) as [<-|_];
          [intros _;
           first [now left | now right
                 | exfalso; vm_compute in Il; discriminate Il]|]
    end.
  congruence.
Qed.

Lemma analysis_getKpiIcon_spec (kpiKey : string) :
  toLowerCase kpiKey <> "constructor" -> toLowerCase kpiKey <> "__proto__" ->
  AnalysisDialog.getKpiIcon kpiKey = IconSpec.icon AnalysisDialog.iconMap kpiKey.
Proof.
  intros H1 H2. apply resolver_spec; [reflexivity|].
  destruct (lookup (toLowerCase kpiKey) ObjectPrototype) eqn:E; [|reflexivity].
  destruct (inherited_lower kpiKey); congruence.
Qed.

Lemma queue_getKpiIcon_spec (kpiKey : string) :
  toLowerCase kpiKey <> "constructor" -> toLowerCase kpiKey <> "__proto__" ->
  QueueDialog.getKpiIcon kpiKey = IconSpec.icon QueueDialog.iconMap kpiKey.
Proof.
  intros H1 H2. apply resolver_spec; [reflexivity|].
  destruct (lookup (toLowerCase kpiKey) ObjectPrototype) eqn:E; [|reflexivity].
  destruct (inherited_lower kpiKey); congruence.
Qed.

(** The example of the specification: no term of the queue mapping
    before ["offered"] occurs in ["total_offered"]. *)
Example queue_total_offered :
  QueueDialog.getKpiIcon "total_offered" = VString "phone_in_talk" /\
  lookup "total_offered" QueueDialog.iconMap = None /\
  find (fun entry => includes "total_offered" (fst entry)) QueueDialog.iconMap
    = Some ("offered", VString "phone_in_talk").
Proof. repeat split; reflexivity. Qed.

(** C5. Each icon resolver lower-cases the key, returns the mapped icon
    on an exact match, otherwise the icon of the first term in insertion
    order that occurs in the key, otherwise ["insights"]. The resolvers do
    so on every key but those that name an inherited property of the
    mapping object: for ["constructor"] the direct lookup finds the
    [Object] function of the prototype chain, which is truthy, and the
    resolver returns it instead of the default the specification gives. *)
Theorem getKpiIcon_constructor :
  AnalysisDialog.getKpiIcon "constructor" = VNative (NativeFunction "Object") /\
  QueueDialog.getKpiIcon "constructor" = VNative (NativeFunction "Object") /\
  IconSpec.icon AnalysisDialog.iconMap "constructor" = VString "insights" /\
  IconSpec.icon QueueDialog.iconMap "constructor" = VString "insights" /\
  (forall k, toLowerCase k <> "constructor" -> toLowerCase k <> "__proto__" ->
     AnalysisDialog.getKpiIcon k = IconSpec.icon AnalysisDialog.iconMap k /\
     QueueDialog.getKpiIcon k = IconSpec.icon QueueDialog.iconMap k).
Proof.
  repeat split; try reflexivity.
  - now apply analysis_getKpiIcon_spec.
  - now apply queue_getKpiIcon_spec.
Qed.

Lemma getKpiIcon_constructor_witness :
  QueueDialog.getKpiIcon "total_offered" =
    IconSpec.icon QueueDialog.iconMap "total_offered".
Proof.
  apply (proj2 (proj2 (proj2 (proj2 getKpiIcon_constructor))) "total_offered");
    discriminate.
Defined.

End IconFacts.

(** ** Numbers *)

Module NumberFacts.
Import JsString JsStringFacts RegExp Js JsFacts.

Lemma string_of_uint_digits d :
  every isDigit (NilEmpty.string_of_uint d) = true.
Proof. induction d; simpl; auto. Qed.

Lemma decimal_digits n : every isDigit (decimal n) = true.
Proof. apply string_of_uint_digits. Qed.

(** Reading the digits back gives the number, leading zeros or not. *)
Lemma digits_value_decimal n : digits_value (decimal n) = Some n.
Proof.
  unfold digits_value, decimal. rewrite NilEmpty.usu. simpl.
  now rewrite DecimalN.Unsigned.of_to.
Qed.

Lemma digits_value_zero s : digits_value (String "0" s) = digits_value s.
Proof.
  unfold digits_value. cbn [NilEmpty.uint_of_string].
  destruct (NilEmpty.uint_of_string s); reflexivity.
Qed.

Lemma digits_value_filler k s :
  digits_value (filler k "0" "0" ++ s) = digits_value s.
Proof.
  assert (G : forall k r, r = "" \/ r = "0" ->
            digits_value (filler k "0" r ++ s) = digits_value s).
  { clear k. induction k as [|k IH]; intros r Hr; [reflexivity|].
    destruct Hr as [-> | ->]; cbn [filler append];
      rewrite digits_value_zero; apply IH; auto. }
  apply G. now right.
Qed.

Lemma digits_value_padStart k n :
  digits_value (padStart k "0" (decimal n)) = Some n.
Proof.
  unfold padStart. destruct (k <=? String.length (decimal n))%nat.
  - apply digits_value_decimal.
  - rewrite digits_value_filler. apply digits_value_decimal.
Qed.

(** Zero-padded numerals are equal only for equal numbers. *)
Lemma padStart_decimal_inj k n n' :
  padStart k "0" (decimal n) = padStart k "0" (decimal n') -> n = n'.
Proof.
  intros E. apply (f_equal digits_value) in E.
  rewrite !digits_value_padStart in E. now injection E.
Qed.

Lemma substring_skip (a b : string) n :
  substring (String.length a) n (a ++ b) = substring 0 n b.
Proof. induction a as [|x a IH]; simpl; [reflexivity | exact IH]. Qed.

(** Splitting a string before its last character. *)
Lemma split_last (m : string) :
  (2 <= String.length m)%nat ->
  exists a c, m = a ++ String c "" /\ a <> "" /\
    substring 0 (String.length m - 1) m = a /\
    substring (String.length m - 1) 1 m = String c "".
Proof.
  intros L. destruct (last_char m) as (a & c & E).
  { intros ->. simpl in L. lia. }
  exists a, c. subst m. rewrite length_append in *. simpl in *.
  replace (String.length a + 1 - 1)%nat with (String.length a) by lia.
  repeat split.
  - intros ->. simpl in L. lia.
  - apply substring_prefix.
  - rewrite substring_skip. reflexivity.
Qed.

End NumberFacts.

(** ** Queue dialog: the KPI map *)

Module QueueDialogFacts.
Import JsString JsStringFacts RegExp Js JsFacts NumberFacts QueueReport QueueDialog.

Lemma digit_not_minus c : isDigit c = true -> Ascii.eqb c "-" = false.
Proof.
  intros H. destruct (Ascii.eqb_spec c "-") as [->|]; [discriminate H | reflexivity].
Qed.

(** A sign, digits, the point and a digit make a numeral with one decimal
    place. *)
Lemma one_decimal_intro (negative : bool) a c :
  a <> "" -> every isDigit a = true -> isDigit c = true ->
  one_decimal ((if negative then "-" else "") ++ a ++ "." ++ String c "") = true.
Proof.
  intros Hne Ha Hc. destruct a as [|c0 a]; [congruence|].
  simpl in Ha. apply andb_true_iff in Ha as [Hc0 Ha].
  assert (B : one_decimal (String c0 a ++ "." ++ String c "") = true).
  { unfold one_decimal. cbn [append]. rewrite (digit_not_minus c0 Hc0), Hc0.
    cbn [dropWhile]. rewrite Hc0, (dropWhile_every _ _ _ Ha).
    rewrite dropWhile_stop by reflexivity. now rewrite Hc. }
  destruct negative; [|exact B].
  unfold one_decimal in *. cbn [append] in *.
  now rewrite (digit_not_minus c0 Hc0) in B.
Qed.

(** [toFixed(1)] of a finite number below 10^21 in magnitude. *)
Lemma toFixed_1_decimal `{Host} q :
  (Qabs q < inject_Z (10 ^ 21))%Q -> one_decimal (toFixed (Finite q) 1) = true.
Proof.
  intros Hq. unfold toFixed.
  destruct (Qle_bool (inject_Z (10 ^ 21)) (Qabs q)) eqn:E.
  { apply Qle_bool_iff in E. exfalso. exact (Qlt_not_le _ _ Hq E). }
  set (n := Z.to_N _). cbn [Nat.add].
  set (m := padStart 2 "0" (decimal n)).
  assert (L : (2 <= String.length m)%nat) by apply padStart_length.
  assert (D : every isDigit m = true)
    by (apply padStart_every; [reflexivity | apply decimal_digits]).
  destruct (split_last m L) as (a & c & Em & Hne & -> & ->).
  rewrite Em, every_append in D. apply andb_true_iff in D as [Da Dc].
  simpl in Dc. rewrite andb_true_r in Dc.
  apply (one_decimal_intro (Qnum q <? 0)%Z a c); assumption.
Qed.

(** C3. The queue-report builder produces a [displayKpi] of exactly the
    eight entries Total Offered, Total Answered, Total Abandoned, Answer
    Rate, Abandonment Rate, Avg Wait Time, Max Wait Time and Avg Handle
    Time, in this order and with no other metric; the two rates end in
    ["%"], the three times in ["s"], and Avg Handle Time is
    [avg_handle_time_sec.toFixed(1)], a numeral with exactly one decimal
    place whenever [avg_handle_time_sec] is finite and below 10^21 in
    magnitude (17 gives ["17.0s"]). *)
Theorem queue_displayKpi `{Host} (data : QueueReportJSON) :
  let m := queue_metrics data in
  displayKpi (constructor data) =
    [ ("Total Offered", total_offered m);
      ("Total Answered", total_answered m);
      ("Total Abandoned", total_abandoned m);
      ("Answer Rate", VString (Number_toString (answer_rate m) ++ "%"));
      ("Abandonment Rate", VString (Number_toString (abandonment_rate m) ++ "%"));
      ("Avg Wait Time", VString (Number_toString (avg_wait_time_sec m) ++ "s"));
      ("Max Wait Time", VString (Number_toString (max_wait_time_sec m) ++ "s"));
      ("Avg Handle Time", VString (toFixed (avg_handle_time_sec m) 1 ++ "s")) ] /\
  keys (displayKpi (constructor data)) =
    [ "Total Offered"; "Total Answered"; "Total Abandoned"; "Answer Rate";
      "Abandonment Rate"; "Avg Wait Time"; "Max Wait Time"; "Avg Handle Time" ] /\
  (forall q,
      avg_handle_time_sec m = Finite q -> (Qabs q < inject_Z (10 ^ 21))%Q ->
      exists body,
        lookup "Avg Handle Time" (displayKpi (constructor data))
          = Some (VString (body ++ "s")) /\
        one_decimal body = true) /\
  (avg_handle_time_sec m = Finite 17 ->
   lookup "Avg Handle Time" (displayKpi (constructor data))
     = Some (VString "17.0s")).
Proof.
  intros m. split; [reflexivity|]. split; [reflexivity|].
  assert (L : lookup "Avg Handle Time" (displayKpi (constructor data))
              = Some (VString (toFixed (avg_handle_time_sec m) 1 ++ "s")))
    by reflexivity.
  rewrite L. split.
  - intros q Hq Hlt. exists (toFixed (Finite q) 1). split.
    + now rewrite Hq.
    + now apply toFixed_1_decimal.
  - intros Hq. now rewrite Hq.
Qed.

Lemma queue_displayKpi_witness :
  lookup "Avg Handle Time"
    (displayKpi (@constructor Sample.host
                   (Sample.queueReport "2025-07-09T13:30:00"
                      "2025-07-16T11:30:00" (Finite 17))))
    = Some (VString "17.0s").
Proof.
  apply (proj2 (proj2 (proj2 (@queue_displayKpi Sample.host
           (Sample.queueReport "2025-07-09T13:30:00" "2025-07-16T11:30:00"
              (Finite 17)))))).
  reflexivity.
Defined.

(** An infinite [avg_handle_time_sec] (the number a JSON document gives
    for [1e999]) is rendered ["Infinitys"], with no decimal place. *)
Lemma avg_handle_time_infinite :
  ~ (forall (H : Host) (data : QueueReportJSON),
       exists body,
         lookup "Avg Handle Time" (displayKpi (constructor data))
           = Some (VString (body ++ "s")) /\
         one_decimal body = true).
Proof.
  intros C.
  destruct (C Sample.host (Sample.queueReport "" "" (Infinity false)))
    as (body & Hl & Hd).
  assert (E : lookup "Avg Handle Time"
                (displayKpi (@constructor Sample.host
                               (Sample.queueReport "" "" (Infinity false))))
              = Some (VString ("Infinity" ++ "s"))) by reflexivity.
  rewrite E in Hl. injection Hl as Hl.
  assert (L : String.length "Infinity" = String.length body).
  { apply (f_equal String.length) in Hl. rewrite !length_append in Hl.
    simpl in *. lia. }
  change "Infinitys" with ("Infinity" ++ "s") in Hl.
  destruct (append_inj_length _ _ _ _ Hl L) as [<- _].
  discriminate Hd.
Qed.

End QueueDialogFacts.

(** ** Dates *)

Module JsDateFacts.
Import JsString JsStringFacts RegExp Js JsFacts NumberFacts JsDate.

Local Open Scope Z_scope.

Lemma year_estimate_low d : DayFromYear (1970 + 400 * d / 146097 - 1) <= d.
Proof. unfold DayFromYear. Z.div_mod_to_equations. lia. Qed.

Lemma year_estimate_high d : d < DayFromYear (1970 + 400 * d / 146097 + 2).
Proof. unfold DayFromYear. Z.div_mod_to_equations. lia. Qed.

(** [YearFromDay] is the year of ECMA-262: the one whose first day is the
    last first day not after [d]. *)
Lemma YearFromDay_spec d :
  DayFromYear (YearFromDay d) <= d < DayFromYear (YearFromDay d + 1).
Proof.
  unfold YearFromDay.
  pose proof (year_estimate_low d). pose proof (year_estimate_high d).
  set (y := 1970 + 400 * d / 146097) in *.
  destruct (Z.ltb_spec d (DayFromYear y)).
  - replace (y - 1 + 1) with y by lia. lia.
  - destruct (Z.leb_spec (DayFromYear (y + 1)) d).
    + replace (y + 1 + 1) with (y + 2) by lia. lia.
    + lia.
Qed.

Lemma step4 y : (y - 1968) / 4 - (y - 1969) / 4 = if y mod 4 =? 0 then 1 else 0.
Proof. destruct (Z.eqb_spec (y mod 4) 0); Z.div_mod_to_equations; lia. Qed.

Lemma step100 y :
  (y - 1900) / 100 - (y - 1901) / 100 = if y mod 100 =? 0 then 1 else 0.
Proof. destruct (Z.eqb_spec (y mod 100) 0); Z.div_mod_to_equations; lia. Qed.

Lemma step400 y :
  (y - 1600) / 400 - (y - 1601) / 400 = if y mod 400 =? 0 then 1 else 0.
Proof. destruct (Z.eqb_spec (y mod 400) 0); Z.div_mod_to_equations; lia. Qed.

(** A year has 365 days, or 366 when it is a leap year. *)
Lemma DaysInYear y : DayFromYear (y + 1) - DayFromYear y = 365 + InLeapYear y.
Proof.
  unfold DayFromYear, InLeapYear.
  replace (y + 1 - 1969) with (y - 1968) by lia.
  replace (y + 1 - 1901) with (y - 1900) by lia.
  replace (y + 1 - 1601) with (y - 1600) by lia.
  pose proof (step4 y) as S4. pose proof (step100 y) as S100.
  pose proof (step400 y) as S400.
  assert (M1 : y mod 100 = 0 -> y mod 4 = 0)
    by (intros; Z.div_mod_to_equations; lia).
  assert (M2 : y mod 400 = 0 -> y mod 100 = 0)
    by (intros; Z.div_mod_to_equations; lia).
  revert S4 S100 S400.
  destruct (Z.eqb_spec (y mod 4) 0), (Z.eqb_spec (y mod 100) 0),
    (Z.eqb_spec (y mod 400) 0); cbn [andb orb negb]; intros; try lia;
    exfalso; auto.
Qed.

Lemma InLeapYear_range y : InLeapYear y = 0 \/ InLeapYear y = 1.
Proof. unfold InLeapYear. destruct (_ || _); auto. Qed.

Lemma DayWithinYear_range t :
  0 <= DayWithinYear t < 365 + InLeapYear (YearFromTime t).
Proof.
  unfold DayWithinYear, YearFromTime.
  pose proof (YearFromDay_spec (Day t)).
  pose proof (DaysInYear (YearFromDay (Day t))). lia.
Qed.

Ltac month_cases t :=
  pose proof (DayWithinYear_range t);
  pose proof (InLeapYear_range (YearFromTime t));
  unfold DateFromTime, MonthFromTime in *;
  repeat match goal with
    | |- context [?a <? ?b] => destruct (Z.ltb_spec a b)
    end;
  cbn [monthStart].

Lemma MonthFromTime_range t : 0 <= MonthFromTime t <= 11.
Proof. month_cases t; lia. Qed.

Lemma DateFromTime_range t : 1 <= DateFromTime t <= 31.
Proof. month_cases t; lia. Qed.

(** The day number is determined by year, month and date. *)
Lemma Day_fields t :
  Day t = DayFromYear (YearFromTime t) +
          monthStart (MonthFromTime t) (InLeapYear (YearFromTime t)) +
          DateFromTime t - 1.
Proof. unfold DateFromTime, DayWithinYear. lia. Qed.

Lemma monthName_inj m m' :
  0 <= m <= 11 -> 0 <= m' <= 11 -> monthName m = monthName m' -> m = m'.
Proof.
  intros Hm Hm' E.
  assert (C : forall k, 0 <= k <= 11 ->
            k = 0 \/ k = 1 \/ k = 2 \/ k = 3 \/ k = 4 \/ k = 5 \/ k = 6 \/
            k = 7 \/ k = 8 \/ k = 9 \/ k = 10 \/ k = 11) by (intros; lia).
  destruct (C m Hm) as [->|[->|[->|[->|[->|[->|[->|[->|[->|[->|[->| ->]]]]]]]]]]];
    destruct (C m' Hm') as [->|[->|[->|[->|[->|[->|[->|[->|[->|[->|[->| ->]]]]]]]]]]];
    try reflexivity; discriminate E.
Qed.

Lemma weekdayName_length w : String.length (weekdayName w) = 3%nat.
Proof.
  destruct w as [|p|p]; try reflexivity.
  do 3 (destruct p as [p|p|]; try reflexivity).
Qed.

Lemma monthName_length m : String.length (monthName m) = 3%nat.
Proof.
  destruct m as [|p|p]; try reflexivity.
  do 4 (destruct p as [p|p|]; try reflexivity).
Qed.

Lemma split_space a a' b b' :
  every isDigit a = true -> every isDigit a' = true ->
  (a ++ String " " b = a' ++ String " " b')%string -> a = a' /\ b = b'.
Proof.
  revert a'. induction a as [|c a IH]; intros [|c' a']; simpl; intros Ha Ha' E.
  - injection E as E. auto.
  - injection E as <- _. discriminate Ha'.
  - injection E as -> _. discriminate Ha.
  - injection E as -> E.
    apply andb_true_iff in Ha as [_ Ha]. apply andb_true_iff in Ha' as [_ Ha'].
    destruct (IH a' Ha Ha' E) as [-> ->]. auto.
Qed.

Lemma padded_digits n k :
  every isDigit (ToZeroPaddedDecimalString n k) = true.
Proof.
  unfold ToZeroPaddedDecimalString.
  apply padStart_every; [reflexivity | apply decimal_digits].
Qed.

Lemma padded_inj n n' k :
  0 <= n -> 0 <= n' ->
  ToZeroPaddedDecimalString n k = ToZeroPaddedDecimalString n' k -> n = n'.
Proof.
  intros Hn Hn' E. unfold ToZeroPaddedDecimalString in E.
  apply padStart_decimal_inj in E. now apply Z2N.inj.
Qed.

Lemma yearString_inj y y' : yearString y = yearString y' -> y = y'.
Proof.
  unfold yearString. intros E.
  pose proof (padded_digits (Z.abs y) 4) as D.
  pose proof (padded_digits (Z.abs y') 4) as D'.
  destruct (Z.ltb_spec y 0), (Z.ltb_spec y' 0); cbn [append] in E.
  - injection E as E. apply padded_inj in E; lia.
  - rewrite <- E in D'. discriminate D'.
  - rewrite E in D. discriminate D.
  - apply padded_inj in E; lia.
Qed.

(** Two date strings are equal exactly when they are of the same day. *)
Lemma DateString_inj t t' : DateString t = DateString t' -> Day t = Day t'.
Proof.
  unfold DateString. intros E.
  apply append_inj_length in E; [|now rewrite !weekdayName_length].
  destruct E as [_ E]. cbn [append] in E. injection E as E.
  apply append_inj_length in E; [|now rewrite !monthName_length].
  destruct E as [Em E]. cbn [append] in E. injection E as E.
  apply split_space in E; try apply padded_digits.
  destruct E as [Ed Ey].
  apply monthName_inj in Em; try apply MonthFromTime_range.
  apply padded_inj in Ed;
    try (pose proof (DateFromTime_range t); pose proof (DateFromTime_range t'); lia).
  apply yearString_inj in Ey.
  rewrite (Day_fields t), (Day_fields t'), Em, Ed, Ey. reflexivity.
Qed.

Lemma DateString_Day t t' : Day t = Day t' -> DateString t = DateString t'.
Proof.
  intros E.
  unfold DateString, WeekDay, DateFromTime, MonthFromTime, DayWithinYear,
    YearFromTime.
  now rewrite E.
Qed.

(** The comparison of [toDateString] values made by the date range is the
    comparison of the local calendar days. *)
Lemma toDateString_eqb `{Host} a b :
  String.eqb (toDateString (Some a)) (toDateString (Some b))
  = (Day (LocalTime a) =? Day (LocalTime b)).
Proof.
  cbn [toDateString].
  destruct (Z.eqb_spec (Day (LocalTime a)) (Day (LocalTime b))) as [E|N].
  - rewrite (DateString_Day _ _ E). apply String.eqb_refl.
  - apply String.eqb_neq. intros E. apply N. now apply DateString_inj.
Qed.

End JsDateFacts.

(** ** Queue dialog: the date range *)

Module DateRangeFacts.
Import JsString JsStringFacts Js JsDate JsDateFacts QueueReport QueueDialog.

Local Open Scope Z_scope.

(** The same day is the same year, month and date. *)
Lemma same_day_fields a b :
  Day a = Day b <->
  YearFromTime a = YearFromTime b /\ MonthFromTime a = MonthFromTime b /\
  DateFromTime a = DateFromTime b.
Proof.
  split.
  - intros E. unfold DateFromTime, MonthFromTime, DayWithinYear, YearFromTime.
    now rewrite E.
  - intros (Ey & Em & Ed). now rewrite (Day_fields a), (Day_fields b), Ey, Em, Ed.
Qed.

(** C2. When the two interval datetimes parse to valid timestamps,
    [calculateDateRange] takes the earlier one as start and the later one
    as end, formats a date as ["<Mon> <Day>, <Year>"] (short month name,
    day of the month, year, in local time), and returns the single
    formatted start when start and end fall on the same local calendar
    day, and ["<start> - <end>"] otherwise. *)
Theorem calculateDateRange_valid `{Host} (data : QueueReportJSON) (p w : Z) :
  Date_parse (datetime (peak_interval (queue_metrics data))) = Some p ->
  Date_parse (datetime (worst_abandon_interval (queue_metrics data))) = Some w ->
  let startDate := Z.min p w in
  let endDate := Z.max p w in
  let formatDate := fun tv : Z =>
    let t := LocalTime tv in
    (monthName (MonthFromTime t) ++ " " ++ decimal (Z.to_N (DateFromTime t)) ++
     ", " ++ yearNumeric (YearFromTime t))%string in
  startDate <= endDate /\
  calculateDateRange data =
    (if Day (LocalTime startDate) =? Day (LocalTime endDate)
     then formatDate startDate
     else (formatDate startDate ++ " - " ++ formatDate endDate)%string) /\
  (forall t,
      0 <= MonthFromTime t <= 11 /\ 1 <= DateFromTime t <= 31 /\
      (1 <= YearFromTime t ->
       yearNumeric (YearFromTime t) = decimal (Z.to_N (YearFromTime t)))) /\
  (Day (LocalTime startDate) = Day (LocalTime endDate) <->
   YearFromTime (LocalTime startDate) = YearFromTime (LocalTime endDate) /\
   MonthFromTime (LocalTime startDate) = MonthFromTime (LocalTime endDate) /\
   DateFromTime (LocalTime startDate) = DateFromTime (LocalTime endDate)).
Proof.
  intros Hp Hw startDate endDate formatDate.
  split; [unfold startDate, endDate; lia|]. split; [|split].
  - unfold calculateDateRange, Date_new. rewrite Hp, Hw.
    cbv zeta. cbn [Date_lt Date_gt].
    subst startDate endDate.
    destruct (Z.ltb_spec p w), (Z.ltb_spec w p); try lia;
      [rewrite Z.min_l, Z.max_r by lia
      |rewrite Z.min_r, Z.max_l by lia
      |rewrite Z.min_r, Z.max_r by lia];
      rewrite toDateString_eqb; reflexivity.
  - intros t. split; [apply MonthFromTime_range|].
    split; [apply DateFromTime_range|].
    intros Hy. unfold yearNumeric. apply Z.leb_le in Hy. now rewrite Hy.
  - apply same_day_fields.
Qed.

Lemma calculateDateRange_valid_witness :
  @calculateDateRange Sample.host
    (Sample.queueReport "2025-07-09T13:30:00" "2025-07-16T11:30:00" (Finite 17))
  = "Jul 9, 2025 - Jul 16, 2025"%string.
Proof.
  destruct (@calculateDateRange_valid Sample.host
              (Sample.queueReport "2025-07-09T13:30:00" "2025-07-16T11:30:00"
                 (Finite 17))
              1752067800000 1752665400000 eq_refl eq_refl) as (_ & E & _).
  rewrite E. reflexivity.
Defined.

(** The order of the two intervals does not matter, and two instants of
    one day give a single date. *)
Example calculateDateRange_examples :
  @calculateDateRange Sample.host
    (Sample.queueReport "2025-07-16T11:30:00" "2025-07-09T13:30:00" (Finite 17))
  = "Jul 9, 2025 - Jul 16, 2025"%string /\
  @calculateDateRange Sample.host
    (Sample.queueReport "2025-07-09T13:30:00" "2025-07-09T23:59:59" (Finite 17))
  = "Jul 9, 2025"%string.
Proof. split; reflexivity. Qed.

(** C10. When the two datetimes parse to the same timestamp, neither
    strict comparison holds, start and end are both the worst-abandon
    date, and [calculateDateRange] returns the single formatted date of
    that day, never a range. *)
Theorem calculateDateRange_tie `{Host} (data : QueueReportJSON) (t : Z) :
  Date_parse (datetime (peak_interval (queue_metrics data))) = Some t ->
  Date_parse (datetime (worst_abandon_interval (queue_metrics data))) = Some t ->
  let peakDate := Date_new (datetime (peak_interval (queue_metrics data))) in
  let worstDate :=
    Date_new (datetime (worst_abandon_interval (queue_metrics data))) in
  Date_lt peakDate worstDate = false /\
  Date_gt peakDate worstDate = false /\
  (if Date_lt peakDate worstDate then peakDate else worstDate) = worstDate /\
  (if Date_gt peakDate worstDate then peakDate else worstDate) = worstDate /\
  calculateDateRange data = toLocaleDateString_en_US_short worstDate /\
  calculateDateRange data = formatShort (LocalTime t).
Proof.
  intros Hp Hw peakDate worstDate.
  assert (Lt : Date_lt peakDate worstDate = false).
  { unfold peakDate, worstDate, Date_new. rewrite Hp, Hw. apply Z.ltb_irrefl. }
  assert (Gt : Date_gt peakDate worstDate = false).
  { unfold peakDate, worstDate, Date_new. rewrite Hp, Hw. apply Z.ltb_irrefl. }
  assert (E : calculateDateRange data = toLocaleDateString_en_US_short worstDate).
  { unfold calculateDateRange. fold peakDate worstDate.
    rewrite Lt, Gt, String.eqb_refl. reflexivity. }
  rewrite Lt, Gt. repeat split; try assumption.
  rewrite E. unfold worstDate, Date_new. now rewrite Hw.
Qed.

Lemma calculateDateRange_tie_witness :
  @calculateDateRange Sample.host
    (Sample.queueReport "2025-07-09T13:30:00" "2025-07-09T13:30:00" (Finite 17))
  = "Jul 9, 2025"%string.
Proof.
  destruct (@calculateDateRange_tie Sample.host
              (Sample.queueReport "2025-07-09T13:30:00" "2025-07-09T13:30:00"
                 (Finite 17))
              1752067800000 eq_refl eq_refl) as (_ & _ & _ & _ & _ & E).
  rewrite E. reflexivity.
Defined.

End DateRangeFacts.

(** ** Queue charts: the hourly series *)

Module QueueChartsFacts.
Import JsString JsStringFacts Js QueueReport QueueCharts.

Local Open Scope Z_scope.

Section SortByKey.
Context {A : Type} (key : A -> Z).

Local Abbreviation comparefn := (fun a b : A => key a - key b).

Lemma insert_perm x l : Permutation (insert comparefn x l) (x :: l).
Proof.
  induction l as [|y l IH]; simpl; [reflexivity|].
  destruct (key x - key y <=? 0); [reflexivity|].
  rewrite IH. apply perm_swap.
Qed.

Lemma sort_perm l : Permutation (sort comparefn l) l.
Proof.
  induction l as [|x l IH]; simpl; [reflexivity|].
  rewrite insert_perm. now apply perm_skip.
Qed.

Lemma insert_ascending x l :
  ascending key l -> ascending key (insert comparefn x l).
Proof.
  unfold ascending. induction 1 as [|y l Hl IH Hy]; simpl.
  - constructor; constructor.
  - destruct (Z.leb_spec (key x - key y) 0) as [Le|Gt].
    + constructor; [now constructor|].
      constructor; [lia|].
      eapply Forall_impl; [|exact Hy]. simpl. intros; lia.
    + constructor; [exact IH|].
      rewrite insert_perm. constructor; [lia | exact Hy].
Qed.

Lemma sort_ascending l : ascending key (sort comparefn l).
Proof.
  induction l as [|x l IH]; simpl; [constructor | now apply insert_ascending].
Qed.

(** Stability: the elements of one key keep the order they had. *)
Lemma insert_group k x l :
  group key k (insert comparefn x l) = group key k (x :: l).
Proof.
  unfold group. induction l as [|y l IH]; simpl; [reflexivity|].
  destruct (Z.leb_spec (key x - key y) 0) as [Le|Gt];
    [reflexivity|].
  simpl. rewrite IH. simpl.
  destruct (Z.eqb_spec (key x) k), (Z.eqb_spec (key y) k); try reflexivity.
  lia.
Qed.

Lemma sort_group k l : group key k (sort comparefn l) = group key k l.
Proof.
  induction l as [|x l IH]; simpl; [reflexivity|].
  rewrite insert_group. unfold group in *. simpl. now rewrite IH.
Qed.

(** An array already in ascending order is left as it is. *)
Lemma sort_fixed l : ascending key l -> sort comparefn l = l.
Proof.
  unfold ascending. induction 1 as [|x l Hl IH Hx]; simpl; [reflexivity|].
  rewrite IH. destruct l as [|y l]; simpl; [reflexivity|].
  inversion Hx as [|? ? Hxy _]; subst.
  destruct (Z.leb_spec (key x - key y) 0) as [Le|Gt];
    [reflexivity | lia].
Qed.

Lemma sort_fixed_iff l : sort comparefn l = l <-> ascending key l.
Proof.
  split; [|apply sort_fixed].
  intros E. rewrite <- E. apply sort_ascending.
Qed.

(** The order is the only one that is ascending and stable: whatever
    algorithm an engine uses, a stable sort of [l] yields this list. *)
Lemma ascending_groups_eq l1 l2 :
  ascending key l1 -> ascending key l2 ->
  (forall k, group key k l1 = group key k l2) -> l1 = l2.
Proof.
  unfold ascending. intros S1. revert l2.
  induction S1 as [|x l1 S1 IH Hx]; intros l2 S2 G.
  - destruct l2 as [|y l2]; [reflexivity|].
    specialize (G (key y)). unfold group in G. simpl in G.
    rewrite Z.eqb_refl in G. discriminate.
  - destruct S2 as [|y l2 S2 Hy].
    + specialize (G (key x)). unfold group in G. simpl in G.
      rewrite Z.eqb_refl in G. discriminate.
    + assert (Hmin1 : forall a, In a (x :: l1) -> key x <= key a).
      { intros a [<-|Ha]; [lia|]. rewrite Forall_forall in Hx. auto. }
      assert (Hmin2 : forall a, In a (y :: l2) -> key y <= key a).
      { intros a [<-|Ha]; [lia|]. rewrite Forall_forall in Hy. auto. }
      assert (In1 : In x (y :: l2)).
      { assert (I : In x (group key (key x) (y :: l2))).
        { rewrite <- G. unfold group. simpl. rewrite Z.eqb_refl. now left. }
        unfold group in I. apply filter_In in I. tauto. }
      assert (In2 : In y (x :: l1)).
      { assert (I : In y (group key (key y) (x :: l1))).
        { rewrite G. unfold group. simpl. rewrite Z.eqb_refl. now left. }
        unfold group in I. apply filter_In in I. tauto. }
      assert (K : key x = key y).
      { pose proof (Hmin1 y In2). pose proof (Hmin2 x In1). lia. }
      pose proof (G (key x)) as Gx. unfold group in Gx. simpl in Gx.
      rewrite <- K, Z.eqb_refl in Gx. injection Gx as <- Gx.
      f_equal. apply IH; [exact S2|].
      intros k. specialize (G k). unfold group in *. simpl in G.
      destruct (Z.eqb_spec (key x) k); [now injection G | exact G].
Qed.

Lemma stable_sort_unique l l' :
  ascending key l' -> (forall k, group key k l' = group key k l) ->
  l' = sort comparefn l.
Proof.
  intros S G. apply ascending_groups_eq; [exact S | apply sort_ascending|].
  intros k. now rewrite G, sort_group.
Qed.

End SortByKey.

Lemma update_same h r a : update h r a r = a.
Proof. unfold update. now rewrite Nat.eqb_refl. Qed.

Lemma update_other h r a r' : r' <> r -> update h r a r' = h r'.
Proof.
  intros N. unfold update. destruct (Nat.eqb_spec r' r); [contradiction | reflexivity].
Qed.

(** The label of an hour that is a safe integer is its decimal numeral
    followed by [":00"]. *)
Lemma hour_label `{Host} (z : Z) :
  Z.abs z < 2 ^ 53 ->
  (Number_toString (Finite (inject_Z z)) ++ ":00")%string
  = ((if (z <? 0)%Z then "-" else "") ++ decimal (Z.abs_N z) ++ ":00")%string.
Proof.
  intros Hz. unfold Number_toString, isInteger.
  change (Qnum (inject_Z z)) with z. change (Zpos (Qden (inject_Z z))) with 1.
  rewrite Z.mod_1_r, Qfloor_Z. cbn [Z.eqb andb].
  apply Z.ltb_lt in Hz. rewrite Hz.
  now rewrite JsStringFacts.append_assoc.
Qed.

(** C8. The hourly series of the hourly chart is the [service_trends]
    array sorted in ascending order of [HOUR] by a stable sort (a
    permutation of the buckets in which the buckets of one hour keep their
    order), and the labels ["<HOUR>:00"] and the two series
    ([TOTAL_OFFERED], [ABANDONMENT_RATE]) are read off this ordered
    sequence. *)
Theorem createHourlyChart_series `{Host}
  (this : QueueChartsComponent) (h : heap) (ctx : CanvasRenderingContext2D) :
  hourlyCanvas_getContext_2d this = Some ctx ->
  let trends := h (service_trends (report this)) in
  exists h' config,
    createHourlyChart this h = (h', Some config) /\
    let hourlyData := h' (service_trends (report this)) in
    ascending HOUR hourlyData /\
    Permutation hourlyData trends /\
    (forall k, group HOUR k hourlyData = group HOUR k trends) /\
    (forall l, ascending HOUR l ->
               (forall k, group HOUR k l = group HOUR k trends) ->
               l = hourlyData) /\
    labels config =
      map (fun b => Number_toString (Finite (inject_Z (HOUR b))) ++ ":00")%string
        hourlyData /\
    (forall b, Z.abs (HOUR b) < 2 ^ 53 ->
       (Number_toString (Finite (inject_Z (HOUR b))) ++ ":00")%string
       = ((if (HOUR b <? 0)%Z then "-" else "") ++
          decimal (Z.abs_N (HOUR b)) ++ ":00")%string) /\
    map data (datasets config) =
      [map TOTAL_OFFERED hourlyData; map ABANDONMENT_RATE hourlyData].
Proof.
  intros Hctx trends. unfold createHourlyChart. rewrite Hctx.
  cbn [Array_sort]. eexists _, _. split; [reflexivity|].
  cbv zeta. rewrite update_same. fold trends.
  split; [apply sort_ascending|].
  split; [apply sort_perm|].
  split; [intros k; apply sort_group|].
  split; [intros l Sl Gl; now apply stable_sort_unique|].
  split; [reflexivity|].
  split; [intros b Hb; now apply hour_label | reflexivity].
Qed.

Lemma createHourlyChart_series_witness :
  exists h' config,
    @createHourlyChart Sample.host Sample.charts Sample.store = (h', Some config) /\
    map HOUR (h' 0%nat) = [9; 12; 14] /\
    labels config = ["9:00"; "12:00"; "14:00"]%string.
Proof.
  destruct (@createHourlyChart_series Sample.host Sample.charts Sample.store
              Context2D eq_refl) as (h' & config & E & _).
  exists h', config. split; [exact E|].
  injection E as <- <-. split; reflexivity.
Defined.

(** C1. Producing the hourly series sorts the [service_trends] array in
    place: after the call that very array holds its buckets in ascending
    stable order of [HOUR], and the series of the chart are read from it;
    no copy is made and no other array is touched. The array is as it was
    before exactly when it was already in ascending order of [HOUR] (and
    when no drawing context is available, in which case nothing is
    built). *)
Theorem createHourlyChart_in_place `{Host}
  (this : QueueChartsComponent) (h : heap) :
  let r := service_trends (report this) in
  let h' := fst (createHourlyChart this h) in
  (forall r', r' <> r -> h' r' = h r') /\
  (hourlyCanvas_getContext_2d this = None ->
   h' r = h r /\ snd (createHourlyChart this h) = None) /\
  (forall ctx, hourlyCanvas_getContext_2d this = Some ctx ->
     h' r = sort (fun a b => HOUR a - HOUR b) (h r) /\
     Permutation (h' r) (h r) /\
     ascending HOUR (h' r) /\
     (forall k, group HOUR k (h' r) = group HOUR k (h r)) /\
     (h' r = h r <-> ascending HOUR (h r)) /\
     exists config,
       snd (createHourlyChart this h) = Some config /\
       map data (datasets config) =
         [map TOTAL_OFFERED (h' r); map ABANDONMENT_RATE (h' r)]).
Proof.
  intros r h'. subst h'. unfold createHourlyChart.
  destruct (hourlyCanvas_getContext_2d this) as [c|]; cbn [Array_sort fst snd].
  - fold r. split; [intros r' N; now apply update_other|].
    split; [discriminate|]. intros ctx _. rewrite update_same.
    split; [reflexivity|].
    split; [apply sort_perm|].
    split; [apply sort_ascending|].
    split; [intros k; apply sort_group|].
    split; [apply sort_fixed_iff|].
    eexists. split; reflexivity.
  - split; [reflexivity|]. split; [auto | discriminate].
Qed.

Lemma createHourlyChart_in_place_witness :
  map HOUR (fst (@createHourlyChart Sample.host Sample.charts Sample.store) 0%nat)
  = [9; 12; 14].
Proof.
  destruct (@createHourlyChart_in_place Sample.host Sample.charts Sample.store)
    as (_ & _ & S).
  destruct (S Context2D eq_refl) as (E & _).
  exact (eq_trans (f_equal (map HOUR) E) eq_refl).
Defined.

(** After the hourly chart is built from the buckets of hours 14, 9 and
    12, the array of the report holds them as 9, 12, 14. *)
Lemma createHourlyChart_mutates :
  ~ (forall (H : Host) (this : QueueChartsComponent) (h : heap),
       fst (createHourlyChart this h) (service_trends (report this))
       = h (service_trends (report this))).
Proof.
  intros C. specialize (C Sample.host Sample.charts Sample.store).
  apply (f_equal (map HOUR)) in C. discriminate C.
Qed.

End QueueChartsFacts.

(** * Part III: further properties of the code *)

(** ** Duration pipe: what is kept and what is dropped *)

Module DurationPipeMore.
Import JsString JsStringFacts RegExp RegExpFacts DurationPipe DurationPipeFacts.

Lemma length_nil (s : string) : String.length s = 0%nat -> s = "".
Proof. destruct s; simpl; [reflexivity | discriminate]. Qed.

(** A string that ends with the pattern ends with a digit. *)
Lemma hms_last_digit pre h mm ss :
  is_hms h mm ss -> last_is isDigit (pre ++ hms h mm ss) = true.
Proof.
  intros (_ & _ & _ & Hs).
  destruct (two_digits_inv ss Hs) as (s1 & s2 & -> & _ & D2).
  unfold hms.
  replace (pre ++ h ++ ":" ++ mm ++ ":" ++ String s1 (String s2 ""))
    with ((pre ++ h ++ ":" ++ mm ++ ":" ++ String s1 "") ++ String s2 "").
  - now rewrite last_is_snoc.
  - now rewrite !append_assoc.
Qed.

(** No match in a string that does not end with a digit. *)
Lemma match_needs_last_digit v :
  last_is isDigit v = false -> match_ v = None.
Proof.
  intros L. apply match_none. intros (pre & h & mm & ss & -> & Shape).
  rewrite (hms_last_digit pre h mm ss Shape) in L. discriminate.
Qed.

(** X1. The formatter keeps nothing of what precedes the hours: two inputs
    that end with the same [hours:minutes:seconds] are formatted alike,
    whatever comes before (a day count, for one). *)
Theorem transform_discards_prefix (pre pre' h mm ss : string) :
  is_hms h mm ss -> no_trailing_digit pre -> no_trailing_digit pre' ->
  transform (pre ++ hms h mm ss) = transform (pre' ++ hms h mm ss) /\
  transform (pre ++ hms h mm ss) = transform (hms h mm ss).
Proof.
  intros Shape P P'. unfold transform.
  rewrite (match_hms pre h mm ss Shape P), (match_hms pre' h mm ss Shape P').
  split; [reflexivity|].
  pose proof (match_hms "" h mm ss Shape eq_refl) as M0.
  cbn [append] in M0. now rewrite M0.
Qed.

Lemma transform_discards_prefix_witness :
  transform ("1 days " ++ hms "02" "03" "04")
  = transform ("0 days " ++ hms "02" "03" "04").
Proof.
  apply (transform_discards_prefix "1 days " "0 days " "02" "03" "04").
  - repeat split; try reflexivity. discriminate.
  - reflexivity.
  - reflexivity.
Defined.

(** X2. The inputs the formatter leaves as they are: those that do not
    end with the pattern, and those that are nothing but
    [hours:minutes:seconds] with hours of two digits or more. Every other
    input is changed. *)
Theorem transform_fixed_points (v : string) :
  transform v = v <->
  (~ (exists pre h mm ss, v = pre ++ hms h mm ss /\ is_hms h mm ss)) \/
  (exists h mm ss,
      v = hms h mm ss /\ is_hms h mm ss /\ (2 <= String.length h)%nat).
Proof.
  split.
  - intros Fix. destruct (match_ v) as [g|] eqn:E.
    + right. destruct (match_inv _ _ E) as (pre & h & mm & ss & -> & Shape & P & ->).
      unfold transform in Fix. rewrite E in Fix. cbn [hours minutes seconds] in Fix.
      fold (hms (padStart 2 "0" h) mm ss) in Fix.
      pose proof Shape as (Hne & _ & Hm & Hs).
      assert (L := f_equal String.length Fix).
      rewrite length_append, !hms_length in L by assumption.
      destruct (pad_hours_cases h Hne) as [[L1 Pad] | [L2 Pad]];
        rewrite Pad in *.
      * rewrite length_append in L. simpl in L.
        destruct pre as [|c [|? ?]]; simpl in L; try lia.
        injection Fix as <-. discriminate P.
      * assert (pre = "") by (apply length_nil; lia). subst pre.
        now exists h, mm, ss.
    + left. now apply match_none.
  - intros [No | (h & mm & ss & -> & Shape & L)]; unfold transform.
    + apply match_none in No. now rewrite No.
    + pose proof (match_hms "" h mm ss Shape eq_refl) as M0.
      cbn [append] in M0. rewrite M0. cbn [hours minutes seconds].
      now rewrite (padStart_long 2 "0" h L).
Qed.

Lemma transform_fixed_points_witness :
  transform "12:03:15" = "12:03:15" /\ transform "1:03:15" <> "1:03:15".
Proof.
  split.
  - apply (proj2 (transform_fixed_points "12:03:15")). right.
    exists "12", "03", "15".
    repeat split; try reflexivity; try discriminate; try (simpl; lia).
  - intros Fix. apply (proj1 (transform_fixed_points "1:03:15")) in Fix.
    destruct Fix as [No | (h & mm & ss & E & Shape & L)].
    + apply No. exists "", "1", "03", "15".
      repeat split; try reflexivity. discriminate.
    + pose proof (match_hms "" h mm ss Shape eq_refl) as M.
      cbn [append] in M. rewrite <- E in M. vm_compute in M. injection M as <- _ _.
      simpl in L. lia.
Defined.

(** X3. An input whose last character is not a digit is returned
    unchanged, whatever it contains before. *)
Theorem transform_without_last_digit (v : string) :
  last_is isDigit v = false -> transform v = v.
Proof.
  intros L. unfold transform. now rewrite (match_needs_last_digit v L).
Qed.

Lemma transform_without_last_digit_witness :
  transform "00:03:15 h" = "00:03:15 h".
Proof. apply transform_without_last_digit. reflexivity. Defined.

End DurationPipeMore.

(** ** Call-report dialog: errors and what the builder leaves alone *)

Module AnalysisDialogMore.
Import JsString JsStringFacts RegExp Js JsFacts NumberFacts AnalysisDialog.
Import AnalysisDialogFacts.

(** An array has no element under a key that is not a numeral. *)
Lemma element_word i k xs : every isDigit k = false -> element i k xs = None.
Proof.
  intros Hk. revert i. induction xs as [|x xs IH]; intros i; simpl; [reflexivity|].
  destruct (String.eqb_spec (decimal i) k) as [E|_]; [|apply IH].
  rewrite <- E, decimal_digits in Hk. discriminate.
Qed.

(** Reading one of the three properties of an array. *)
Lemma GetV_array_word xs k :
  every isDigit k = false -> String.eqb k "length" = false ->
  lookup k ArrayPrototype = None -> lookup k ObjectPrototype = None ->
  GetV (VArray xs) k = Normal VUndefined.
Proof.
  intros Hd Hl Ha Ho. unfold GetV. rewrite (element_word 0 k xs Hd), Hl, Ha.
  unfold Get. cbn [lookup]. now rewrite Ho.
Qed.

(** The [longest] that the builder reads is an own entry of the copy
    whenever it passes the guard. *)
Lemma longest_own (kpi longest : value) :
  GetV kpi "longest" = Normal longest ->
  String.eqb (typeof longest) "object" && ToBoolean longest = true ->
  exists o, kpi = VObject o /\ lookup "longest" o = Some longest.
Proof.
  intros G Guard. destruct kpi as [| | b | n | s | xs | o | nat];
    try discriminate G.
  - injection G as <-. discriminate Guard.
  - injection G as <-. discriminate Guard.
  - injection G as <-. discriminate Guard.
  - rewrite GetV_array_word in G by reflexivity.
    injection G as <-. discriminate Guard.
  - exists o. split; [reflexivity|]. cbn [GetV] in G. injection G as G.
    unfold Get in G. destruct (lookup "longest" o) as [v|]; [now subst|].
    cbn in G. subst longest. discriminate Guard.
  - injection G as <-. discriminate Guard.
Qed.

(** Past the guard, the three properties of a [longest] that is not a
    plain object are undefined. *)
Lemma GetV_guarded (l : value) k :
  In k ["duration"; "from_name"; "to_name"] ->
  String.eqb (typeof l) "object" && ToBoolean l = true ->
  (exists fields, l = VObject fields) \/ GetV l k = Normal VUndefined.
Proof.
  intros Hk. destruct l as [| | b | n | s | xs | o | nat]; try discriminate;
    intros _.
  - right. destruct Hk as [<- | [<- | [<- | []]]];
      now rewrite GetV_array_word.
  - left. now exists o.
  - right. reflexivity.
Qed.

(** The formatting branch, on a [longest] that is not a plain object. *)
Lemma constructor_not_object `{Host} (data : ReportJSON) (o : props) (l : value) :
  kpi data = VObject o ->
  lookup "longest" o = Some l ->
  String.eqb (typeof l) "object" && ToBoolean l = true ->
  (forall fields, l <> VObject fields) ->
  exists c,
    constructor data = Normal c /\
    displayKpi c =
      Set_ o "longest" (VString ("undefined" ++ " (" ++ "undefined" ++ " → " ++ "undefined" ++ ")")).
Proof.
  intros Hkpi Hl Guard No.
  assert (U : forall k, In k ["duration"; "from_name"; "to_name"] ->
                        GetV l k = Normal VUndefined).
  { intros k Hk. destruct (GetV_guarded l k Hk Guard) as [(fields & E) | E];
      [now destruct (No fields) | exact E]. }
  unfold constructor. rewrite Hkpi. cbn [GetV bind spread].
  rewrite (Get_own _ _ _ Hl), Guard.
  rewrite !U by (simpl; auto). cbn [bind ToString].
  eexists. split; reflexivity.
Qed.

(** The two outcomes of a normal completion. *)
Lemma constructor_cases `{Host} (data : ReportJSON) (c : AnalysisDialogComponent) :
  constructor data = Normal c ->
  displayKpi c = spread (kpi data) \/
  exists o longest d f t,
    kpi data = VObject o /\ lookup "longest" o = Some longest /\
    displayKpi c =
      Set_ o "longest" (VString (d ++ " (" ++ f ++ " → " ++ t ++ ")")).
Proof.
  intros Hc. destruct (GetV (kpi data) "longest") as [l|e] eqn:G.
  2:{ unfold constructor in Hc. rewrite G in Hc. discriminate Hc. }
  destruct (String.eqb (typeof l) "object" && ToBoolean l) eqn:Guard.
  - destruct (longest_own _ _ G Guard) as (o & Eo & Hl). right.
    exists o, l.
    assert (Cases : (exists fields, l = VObject fields) \/
                    forall fields, l <> VObject fields).
    { destruct l; try (right; discriminate). left. eexists. reflexivity. }
    destruct Cases as [(fields & ->) | No].
    + rewrite (constructor_object data o fields Eo Hl) in Hc.
      destruct (ToString (Get fields "duration")) as [d|]; [|discriminate Hc].
      destruct (ToString (Get fields "from_name")) as [f|]; [|discriminate Hc].
      destruct (ToString (Get fields "to_name")) as [t|]; [|discriminate Hc].
      cbn [bind] in Hc. injection Hc as <-. exists d, f, t. auto.
    + destruct (constructor_not_object data o l Eo Hl Guard No) as (c' & Hc' & E).
      assert (c' = c) by congruence. subst c'.
      exists "undefined", "undefined", "undefined". auto.
  - left. unfold constructor in Hc. rewrite G in Hc. cbn [bind] in Hc.
    rewrite Guard in Hc. cbn [bind] in Hc.
    now injection Hc as <-.
Qed.

(** X4. The call-report builder throws in two cases only: when
    [data.kpi] is null or undefined (reading [longest] of it fails), and
    when [kpi.longest] is a plain object one of whose [duration],
    [from_name] and [to_name] does not convert to a string. On every other
    report it completes. *)
Theorem analysis_constructor_throws `{Host} (data : ReportJSON) :
  (exists e, constructor data = Throw e) <->
  (kpi data = VNull \/ kpi data = VUndefined \/
   exists o fields k e,
     kpi data = VObject o /\ lookup "longest" o = Some (VObject fields) /\
     In k ["duration"; "from_name"; "to_name"] /\
     ToString (Get fields k) = Throw e).
Proof.
  split.
  - intros (e & T). destruct (GetV (kpi data) "longest") as [l|e'] eqn:G.
    2:{ destruct (kpi data); try discriminate G; auto. }
    right. right.
    destruct (String.eqb (typeof l) "object" && ToBoolean l) eqn:Guard.
    2:{ unfold constructor in T. rewrite G in T. cbn [bind] in T.
        rewrite Guard in T. discriminate T. }
    destruct (longest_own _ _ G Guard) as (o & Eo & Hl).
    assert (Cases : (exists fields, l = VObject fields) \/
                    forall fields, l <> VObject fields).
    { destruct l; try (right; discriminate). left. eexists. reflexivity. }
    destruct Cases as [(fields & ->) | No].
    + exists o, fields.
      rewrite (constructor_object data o fields Eo Hl) in T.
      destruct (ToString (Get fields "duration")) as [d|e1] eqn:Ed.
      2:{ exists "duration", e1. split; [exact Eo|]. split; [exact Hl|].
          split; [simpl; tauto | exact Ed]. }
      destruct (ToString (Get fields "from_name")) as [f|e2] eqn:Ef.
      2:{ exists "from_name", e2. split; [exact Eo|]. split; [exact Hl|].
          split; [simpl; tauto | exact Ef]. }
      destruct (ToString (Get fields "to_name")) as [t|e3] eqn:Et.
      2:{ exists "to_name", e3. split; [exact Eo|]. split; [exact Hl|].
          split; [simpl; tauto | exact Et]. }
      discriminate T.
    + destruct (constructor_not_object data o l Eo Hl Guard No) as (c & Hc & _).
      congruence.
  - intros [E | [E | (o & fields & k & e & Eo & Hl & Hk & T)]].
    + unfold constructor. rewrite E. cbn. eexists. reflexivity.
    + unfold constructor. rewrite E. cbn. eexists. reflexivity.
    + exact (constructor_field_throws data o fields k e Eo Hl Hk T).
Qed.

Lemma analysis_constructor_throws_witness :
  exists e,
    @constructor Sample.host
      (Sample.callReport (VObject Sample.longestUnconvertible)) = Throw e.
Proof.
  apply (proj2 (@analysis_constructor_throws Sample.host
                  (Sample.callReport (VObject Sample.longestUnconvertible)))).
  right. right. eexists _, Sample.longestUnconvertible, "duration", _.
  split; [reflexivity|]. split; [reflexivity|]. split; [now left|].
  reflexivity.
Defined.

(** X5. Whenever the builder completes, [displayKpi] has the keys of
    [kpi] in the same order, every entry other than [longest] is the one of
    [kpi], and the [longest] entry is either the one of [kpi] or a
    string: the builder adds, drops and moves no key. *)
Theorem analysis_displayKpi_keys `{Host}
  (data : ReportJSON) (c : AnalysisDialogComponent) :
  constructor data = Normal c ->
  keys (displayKpi c) = keys (spread (kpi data)) /\
  (forall k, k <> "longest" ->
     lookup k (displayKpi c) = lookup k (spread (kpi data))) /\
  (lookup "longest" (displayKpi c) = lookup "longest" (spread (kpi data)) \/
   exists s, lookup "longest" (displayKpi c) = Some (VString s)).
Proof.
  intros Hc.
  destruct (constructor_cases data c Hc)
    as [-> | (o & l & d & f & t & Eo & Hl & ->)].
  - auto.
  - rewrite Eo. cbn [spread]. split; [eapply keys_Set_own; eauto|].
    split; [intros k Hk; now apply lookup_Set_other|].
    right. eexists. apply lookup_Set_same.
Qed.

Lemma analysis_displayKpi_keys_witness :
  exists c,
    @constructor Sample.host (Sample.callReport (VObject Sample.longestCall))
      = Normal c /\
    keys (displayKpi c) = ["total"; "longest"; "answered_pct"].
Proof.
  eexists. split; [reflexivity|].
  apply (proj1 (@analysis_displayKpi_keys Sample.host
                  (Sample.callReport (VObject Sample.longestCall)) _ eq_refl)).
Defined.

(** X6. An array is of object type and truthy, so a [kpi.longest] that is
    an array, even an empty one, takes the formatting branch: none of the
    three properties exists on it, and the entry becomes
    ["undefined (undefined -> undefined)"] (with the arrow of the
    source). *)
Theorem analysis_longest_array `{Host}
  (data : ReportJSON) (o : props) (xs : list value) :
  kpi data = VObject o ->
  lookup "longest" o = Some (VArray xs) ->
  exists c,
    constructor data = Normal c /\
    lookup "longest" (displayKpi c)
      = Some (VString "undefined (undefined → undefined)").
Proof.
  intros Hkpi Hl.
  destruct (constructor_not_object data o (VArray xs) Hkpi Hl eq_refl)
    as (c & Hc & E); [discriminate|].
  exists c. split; [exact Hc|]. rewrite E. apply lookup_Set_same.
Qed.

Lemma analysis_longest_array_witness :
  exists c,
    @constructor Sample.host (Sample.callReport (VArray [])) = Normal c /\
    lookup "longest" (displayKpi c)
      = Some (VString "undefined (undefined → undefined)").
Proof.
  eapply (@analysis_longest_array Sample.host (Sample.callReport (VArray [])));
    reflexivity.
Defined.

(** X7. Whenever the builder completes on an object [longest], the string
    it has composed for the entry ends with a closing parenthesis, so the
    duration pipe returns it unchanged: applied to the composed entry, the
    pipe does not reformat the duration inside it. *)
Theorem analysis_longest_not_reformatted `{Host}
  (data : ReportJSON) (o fields : props) (c : AnalysisDialogComponent) :
  kpi data = VObject o ->
  lookup "longest" o = Some (VObject fields) ->
  constructor data = Normal c ->
  exists s,
    lookup "longest" (displayKpi c) = Some (VString s) /\
    DurationPipe.transform s = s.
Proof.
  intros Hkpi Hl Hc.
  rewrite (constructor_object data o fields Hkpi Hl) in Hc.
  destruct (ToString (Get fields "duration")) as [d|]; [|discriminate Hc].
  destruct (ToString (Get fields "from_name")) as [f|]; [|discriminate Hc].
  destruct (ToString (Get fields "to_name")) as [t|]; [|discriminate Hc].
  cbn [bind] in Hc. injection Hc as <-. cbn [displayKpi].
  eexists. split; [apply lookup_Set_same|].
  unfold DurationPipe.transform.
  rewrite DurationPipeMore.match_needs_last_digit; [reflexivity|].
  assert (E : forall s, s = d ++ " (" ++ f ++ " → " ++ t ++ ")" ->
                        last_is isDigit s = false).
  { intros s ->.
    replace (d ++ " (" ++ f ++ " → " ++ t ++ ")")
      with ((d ++ " (" ++ f ++ " → " ++ t) ++ ")")
      by (now rewrite !append_assoc).
    now rewrite last_is_snoc. }
  apply E. reflexivity.
Qed.

Lemma analysis_longest_not_reformatted_witness :
  exists c s,
    @constructor Sample.host (Sample.callReport (VObject Sample.longestCall))
      = Normal c /\
    lookup "longest" (displayKpi c) = Some (VString s) /\
    DurationPipe.transform s = s.
Proof.
  destruct (@constructor Sample.host
              (Sample.callReport (VObject Sample.longestCall)))
    as [c|e] eqn:E; [|discriminate E].
  destruct (@analysis_longest_not_reformatted Sample.host
              (Sample.callReport (VObject Sample.longestCall)) _ _ c
              eq_refl eq_refl E) as (s & Hs & Ht).
  exists c, s. auto.
Defined.

End AnalysisDialogMore.

(** ** Icon resolvers: the tiles of the queue dialog, and the default *)

Module IconMore.
Import JsString JsStringFacts Js JsFacts IconFacts.

Lemma includes_refl s : includes s s = true.
Proof.
  apply includes_iff. exists "", "". simpl.
  induction s as [|c s IH]; simpl; [reflexivity | now rewrite <- IH].
Qed.

(** The specification's resolver gives the default only when no term of
    the mapping occurs in the lowered key. *)
Lemma icon_default_iff (mapping : props) (key : string) :
  (forall e, In e mapping -> snd e <> VString "insights") ->
  IconSpec.icon mapping key = VString "insights" <->
  (forall e, In e mapping -> includes (toLowerCase key) (fst e) = false).
Proof.
  intros Hm. unfold IconSpec.icon.
  destruct (lookup (toLowerCase key) mapping) as [v|] eqn:L.
  - apply lookup_In in L. split.
    + intros ->. now destruct (Hm _ L).
    + intros Hall. specialize (Hall _ L). simpl in Hall.
      now rewrite includes_refl in Hall.
  - destruct (find _ mapping) as [[t i]|] eqn:F.
    + apply find_some in F as [Fin Finc]. split.
      * intros ->. now destruct (Hm _ Fin).
      * intros Hall. specialize (Hall _ Fin). congruence.
    + split; [|reflexivity]. intros _ e He.
      exact (find_none _ _ F e He).
Qed.

Ltac no_default_icon :=
  let e := fresh "e" in let HIn := fresh "HIn" in
  intros e HIn; simpl in HIn;
  repeat (destruct HIn as [<-|HIn]; [discriminate|]); contradiction.

(** X8. Every tile of the queue dialog gets the icon written for it: each
    key of the [displayKpi] that the queue builder produces is, once
    lower-cased, a term of the queue mapping, and the resolver returns the
    icon of that very term, never the default and never the icon of a
    shorter term found inside the key. *)
Theorem queue_tiles_icons `{Host} (data : QueueReport.QueueReportJSON) (k : string) :
  In k (keys (QueueDialog.displayKpi (QueueDialog.constructor data))) ->
  exists icon,
    lookup (toLowerCase k) QueueDialog.iconMap = Some (VString icon) /\
    QueueDialog.getKpiIcon k = VString icon /\
    icon <> "insights".
Proof.
  change (keys (QueueDialog.displayKpi (QueueDialog.constructor data)))
    with [ "Total Offered"; "Total Answered"; "Total Abandoned"; "Answer Rate";
           "Abandonment Rate"; "Avg Wait Time"; "Max Wait Time";
           "Avg Handle Time" ].
  intros HIn. simpl in HIn.
  repeat (destruct HIn as [<-|HIn];
          [eexists; split; [reflexivity|]; split; [reflexivity | discriminate]|]).
  contradiction.
Qed.

Lemma queue_tiles_icons_witness :
  exists icon,
    QueueDialog.getKpiIcon "Avg Handle Time" = VString icon /\ icon <> "insights".
Proof.
  destruct (@queue_tiles_icons Sample.host
              (Sample.queueReport "" "" (Finite 17)) "Avg Handle Time")
    as (icon & _ & E & N).
  - simpl. tauto.
  - now exists icon.
Defined.

(** X9. Apart from the two inherited names, a resolver falls back to
    ["insights"] exactly when no term of its mapping occurs in the
    lower-cased key: a key that contains a term never gets the default. *)
Theorem getKpiIcon_default_iff (k : string) :
  toLowerCase k <> "constructor" -> toLowerCase k <> "__proto__" ->
  (AnalysisDialog.getKpiIcon k = VString "insights" <->
   forall e, In e AnalysisDialog.iconMap ->
             includes (toLowerCase k) (fst e) = false) /\
  (QueueDialog.getKpiIcon k = VString "insights" <->
   forall e, In e QueueDialog.iconMap ->
             includes (toLowerCase k) (fst e) = false).
Proof.
  intros H1 H2. split.
  - rewrite (analysis_getKpiIcon_spec k H1 H2).
    apply icon_default_iff. no_default_icon.
  - rewrite (queue_getKpiIcon_spec k H1 H2).
    apply icon_default_iff. no_default_icon.
Qed.

Lemma getKpiIcon_default_iff_witness :
  AnalysisDialog.getKpiIcon "vm_pct" = VString "insights".
Proof.
  apply (proj1 (getKpiIcon_default_iff "vm_pct" ltac:(discriminate)
                  ltac:(discriminate))).
  intros e HIn. simpl in HIn.
  repeat (destruct HIn as [<-|HIn]; [reflexivity|]). contradiction.
Defined.

End IconMore.

(** ** Label pipe *)

Module MetricLabelFacts.
Import JsString Js JsFacts.

(** X10. On every key that is not the name of a property inherited from
    [Object.prototype], the label pipe returns a string: the label of the
    map when the key is one of its eleven keys (the lookup is
    case-sensitive), the key itself otherwise; and the pipe leaves that
    string unchanged when applied again. *)
Theorem metricLabel_transform (key : string) :
  lookup key ObjectPrototype = None ->
  exists s,
    MetricLabelPipe.transform key = VString s /\
    MetricLabelPipe.transform s = VString s /\
    (lookup key MetricLabelPipe.map = None -> s = key) /\
    (forall l, lookup key MetricLabelPipe.map = Some l -> l = VString s).
Proof.
  intros Hp. unfold MetricLabelPipe.transform at 1. unfold Get. rewrite Hp.
  destruct (lookup key MetricLabelPipe.map) as [v|] eqn:L.
  - apply lookup_In in L.
    assert (S : forallb MetricLabelPipe.label_stable MetricLabelPipe.map = true) by reflexivity.
    rewrite forallb_forall in S. specialize (S _ L).
    unfold MetricLabelPipe.label_stable in S. cbn [snd] in S.
    destruct v as [| | | |l| | |]; try discriminate S.
    destruct (MetricLabelPipe.transform l) as [| | | |l'| | |] eqn:T;
      try discriminate S.
    apply String.eqb_eq in S. subst l'.
    exists l. cbn [MetricLabelPipe.nullish].
    repeat split; [exact T | discriminate | now intros ? [= <-]].
  - exists key. cbn [MetricLabelPipe.nullish]. split; [reflexivity|].
    split; [|split; [reflexivity | discriminate]].
    unfold MetricLabelPipe.transform, Get. now rewrite L, Hp.
Qed.

Lemma metricLabel_transform_witness :
  MetricLabelPipe.transform "answered_pct" = VString "Answered %" /\
  MetricLabelPipe.transform "Answered_Pct" = VString "Answered_Pct".
Proof.
  split.
  - destruct (metricLabel_transform "answered_pct" eq_refl) as (s & E & _ & _ & Hl).
    specialize (Hl _ eq_refl). injection Hl as <-. exact E.
  - destruct (metricLabel_transform "Answered_Pct" eq_refl) as (s & E & _ & Hn & _).
    rewrite (Hn eq_refl) in E. exact E.
Defined.

(** X11. A key that names an inherited property of the map object and is
    not one of its own keys is not returned unchanged: the lookup finds
    the inherited member, which is neither undefined nor null, and the
    pipe returns it. *)
Theorem metricLabel_inherited (key : string) (member : value) :
  lookup key ObjectPrototype = Some member ->
  MetricLabelPipe.transform key = member /\
  MetricLabelPipe.transform key <> VString key.
Proof.
  intros Hp.
  assert (Own : lookup key MetricLabelPipe.map = None).
  { destruct (lookup key MetricLabelPipe.map) eqn:L; [|reflexivity].
    exfalso. revert Hp L. unfold ObjectPrototype, builtin. cbn [lookup].
    repeat match goal with
      | |- context [String.eqb ?a key] =>
          destruct (String.eqb_spec a key) as [<-|_]; [intros _; discriminate|]
      end.
    discriminate. }
  assert (M : In (key, member) ObjectPrototype) by now apply lookup_In.
  unfold MetricLabelPipe.transform, Get. rewrite Own, Hp.
  simpl in M. unfold builtin in M.
  repeat (destruct M as [[= <- <-]|M]; [split; [reflexivity | discriminate]|]).
  contradiction.
Qed.

Lemma metricLabel_inherited_witness :
  MetricLabelPipe.transform "toString" = VNative (NativeFunction "toString").
Proof.
  apply (metricLabel_inherited "toString" (VNative (NativeFunction "toString"))).
  reflexivity.
Defined.

End MetricLabelFacts.

(** ** Table headers *)

Module SimpleTableFacts.
Import Js SimpleTable.

(** X12. The headers of an empty table are empty; those of any other
    table are the keys of its first row, in their order, whatever keys the
    other rows have; and the getter throws exactly when the first row is
    null or undefined. *)
Theorem headers_first_row (rows : list value) :
  (rows = [] -> headers rows = Normal []) /\
  (forall o rest, rows = VObject o :: rest -> headers rows = Normal (keys o)) /\
  ((exists e, headers rows = Throw e) <->
   (exists rest, rows = VNull :: rest \/ rows = VUndefined :: rest)).
Proof.
  split; [intros ->; reflexivity|]. split; [intros o rest ->; reflexivity|].
  split.
  - intros (e & T). destruct rows as [|r rest]; [discriminate T|].
    exists rest. cbn in T. destruct r; try discriminate T; auto.
  - intros (rest & [-> | ->]); eexists; reflexivity.
Qed.

Lemma headers_first_row_witness :
  headers SampleMore.rows = Normal ["AGENT"; "ANSWERED CALLS"].
Proof.
  apply (proj1 (proj2 (headers_first_row SampleMore.rows)) _ _ eq_refl).
Defined.

End SimpleTableFacts.

(** ** Queue charts: rebuilding, alignment, tooltips *)

Module QueueChartsMore.
Import JsString Js QueueReport QueueCharts QueueChartsFacts.

Local Open Scope Z_scope.




(** X14. The labels and the two series stay aligned: they have one entry
    per bucket of [service_trends], and the entries at one position come
    from one and the same bucket of the sorted array. *)
Theorem createHourlyChart_aligned `{Host}
  (this : QueueChartsComponent) (h : heap) (ctx : CanvasRenderingContext2D) :
  hourlyCanvas_getContext_2d this = Some ctx ->
  exists h' config offered rate,
    createHourlyChart this h = (h', Some config) /\
    map data (datasets config) = [offered; rate] /\
    List.length (labels config)
      = List.length (h (service_trends (report this))) /\
    List.length offered = List.length (labels config) /\
    List.length rate = List.length (labels config) /\
    forall (i : nat) (b : HourBucket),
      nth_error (h' (service_trends (report this))) i = Some b ->
      nth_error (labels config) i
        = Some (Number_toString (Finite (inject_Z (HOUR b))) ++ ":00")%string /\
      nth_error offered i = Some (TOTAL_OFFERED b) /\
      nth_error rate i = Some (ABANDONMENT_RATE b).
Proof.
  intros Hctx. unfold createHourlyChart. rewrite Hctx. cbn [Array_sort].
  eexists _, _, _, _. split; [reflexivity|]. cbv zeta.
  cbn [datasets labels data map]. split; [reflexivity|].
  rewrite update_same, !length_map.
  split; [apply Permutation_length, sort_perm|].
  split; [reflexivity|]. split; [reflexivity|].
  intros i b Hb. rewrite !nth_error_map, Hb. auto.
Qed.

Lemma createHourlyChart_aligned_witness :
  exists h' config,
    @createHourlyChart Sample.host Sample.charts Sample.store = (h', Some config) /\
    List.length (labels config) = 3%nat.
Proof.
  destruct (@createHourlyChart_aligned Sample.host Sample.charts Sample.store
              Context2D eq_refl) as (h' & config & o & r & E & _ & L & _).
  exists h', config. split; [exact E | exact L].
Defined.

End QueueChartsMore.

(** ** Agent chart *)

Module AgentChartFacts.
Import JsString Js AgentChart.

(** X15. The agent chart plots the agents in the order of [all_agents],
    one point per agent and unsorted: point [i] is the answered calls and
    the efficiency of agent [i]. The tooltip of point [i] names agent [i];
    for an index past the last agent the callback throws, and with no
    drawing context no chart is built. *)
Theorem createAgentChart_points `{Host}
  (ctx : QueueCharts.CanvasRenderingContext2D) (agents : list AgentStat) :
  exists config,
    createAgentChart (Some ctx) agents = Some config /\
    List.length (data config) = List.length agents /\
    (forall i a, nth_error agents i = Some a ->
       nth_error (data config) i
         = Some {| x := ANSWERED_CALLS a; y := EFFICIENCY a |} /\
       forall p,
         tooltip_label config {| dataIndex := i; parsed := p |}
         = Normal (AGENT a ++ ": " ++ Number_toString (x p) ++ " calls, " ++
                   toFixed (y p) 2 ++ " efficiency")) /\
    (forall i p, (List.length agents <= i)%nat ->
       exists e, tooltip_label config {| dataIndex := i; parsed := p |} = Throw e) /\
    createAgentChart None agents = None.
Proof.
  eexists. split; [reflexivity|]. cbn [data tooltip_label dataIndex parsed].
  split; [apply length_map|]. split; [|split; [|reflexivity]].
  - intros i a Ha. rewrite nth_error_map, Ha. split; reflexivity.
  - intros i p Hi. apply nth_error_None in Hi. rewrite Hi. eexists; reflexivity.
Qed.

Lemma createAgentChart_points_witness :
  exists config,
    @createAgentChart Sample.host (Some QueueCharts.Context2D) SampleMore.agents
      = Some config /\
    tooltip_label config
      {| dataIndex := 1; parsed := {| x := Finite 80; y := Finite (2 # 5) |} |}
    = Normal "Bo: 80 calls, 0.40 efficiency".
Proof.
  destruct (@createAgentChart_points Sample.host QueueCharts.Context2D
              SampleMore.agents) as (config & E & _ & P & _).
  exists config. split; [exact E|].
  destruct (P 1%nat _ eq_refl) as (_ & T). rewrite T. reflexivity.
Defined.

End AgentChartFacts.

(** ** Queue dialog: more on the date range *)

Module DateRangeMore.
Import JsString Js JsDate JsDateFacts QueueReport QueueDialog.

Local Open Scope Z_scope.

(** X16. For valid timestamps the date range does not depend on which of
    the two intervals is the peak and which the worst-abandon one:
    exchanging the two datetimes gives the same string. *)
Theorem calculateDateRange_symmetric `{Host}
  (data data' : QueueReportJSON) (p w : Z) :
  Date_parse (datetime (peak_interval (queue_metrics data))) = Some p ->
  Date_parse (datetime (worst_abandon_interval (queue_metrics data))) = Some w ->
  Date_parse (datetime (peak_interval (queue_metrics data'))) = Some w ->
  Date_parse (datetime (worst_abandon_interval (queue_metrics data'))) = Some p ->
  calculateDateRange data = calculateDateRange data'.
Proof.
  intros Hp Hw Hp' Hw'. unfold calculateDateRange, Date_new.
  rewrite Hp, Hw, Hp', Hw'. cbv zeta. cbn [Date_lt Date_gt].
  destruct (Z.ltb_spec p w), (Z.ltb_spec w p); try lia; try reflexivity.
  assert (p = w) by lia. now subst.
Qed.

Lemma calculateDateRange_symmetric_witness :
  @calculateDateRange Sample.host
    (Sample.queueReport "2025-07-09T13:30:00" "2025-07-16T11:30:00" (Finite 17))
  = @calculateDateRange Sample.host
      (Sample.queueReport "2025-07-16T11:30:00" "2025-07-09T13:30:00" (Finite 17)).
Proof.
  apply (@calculateDateRange_symmetric Sample.host _ _
           1752067800000 1752665400000); reflexivity.
Defined.

(** X17. Unparseable datetimes raise no error. When the worst-abandon
    datetime does not parse the range is ["Invalid Date"], whatever the
    peak datetime is; when only the peak datetime does not parse it is
    ignored, and the range is the single date of the worst-abandon
    interval. *)
Theorem calculateDateRange_invalid `{Host} (data : QueueReportJSON) :
  (Date_parse (datetime (worst_abandon_interval (queue_metrics data))) = None ->
   calculateDateRange data = "Invalid Date"%string) /\
  (forall w,
     Date_parse (datetime (peak_interval (queue_metrics data))) = None ->
     Date_parse (datetime (worst_abandon_interval (queue_metrics data))) = Some w ->
     calculateDateRange data = formatShort (LocalTime w)).
Proof.
  split.
  - intros Hw. unfold calculateDateRange, Date_new. rewrite Hw. cbv zeta.
    destruct (Date_parse (datetime (peak_interval (queue_metrics data))));
      reflexivity.
  - intros w Hp Hw. unfold calculateDateRange, Date_new. rewrite Hp, Hw.
    cbv zeta. cbn [Date_lt Date_gt]. now rewrite String.eqb_refl.
Qed.

Lemma calculateDateRange_invalid_witness :
  @calculateDateRange Sample.host
    (Sample.queueReport "2025-07-09T13:30:00" "yesterday" (Finite 17))
  = "Invalid Date"%string /\
  @calculateDateRange Sample.host
    (Sample.queueReport "yesterday" "2025-07-09T13:30:00" (Finite 17))
  = "Jul 9, 2025"%string.
Proof.
  split.
  - apply (proj1 (@calculateDateRange_invalid Sample.host
                    (Sample.queueReport "2025-07-09T13:30:00" "yesterday"
                       (Finite 17)))).
    reflexivity.
  - rewrite (proj2 (@calculateDateRange_invalid Sample.host
                      (Sample.queueReport "yesterday" "2025-07-09T13:30:00"
                         (Finite 17))) 1752067800000 eq_refl eq_refl).
    reflexivity.
Defined.

End DateRangeMore.

(** ** Queue dialog: the rounding of the handle time *)

Module QueueDialogMore.
Import JsString JsStringFacts RegExp Js JsFacts NumberFacts QueueReport QueueDialog
  QueueDialogFacts.

(** The integer closest to ten times a non-negative rational. *)
Lemma tenths_nearest (x : Q) :
  (0 <= x)%Q ->
  let n := Qfloor (x * inject_Z (10 ^ Z.of_nat 1) + (1 # 2))%Q in
  (0 <= n)%Z /\ (Qabs (inject_Z n - 10 * x) <= 1 # 2)%Q.
Proof.
  intros Hx n. change (inject_Z (10 ^ Z.of_nat 1)) with (inject_Z 10) in n.
  pose proof (Qfloor_le (x * inject_Z 10 + (1 # 2))) as Lo.
  pose proof (Qlt_floor (x * inject_Z 10 + (1 # 2))) as Hi.
  fold n in Lo, Hi.
  assert (T : (inject_Z 10 == 10)%Q) by reflexivity.
  split.
  - assert (P : (0 < inject_Z (n + 1))%Q).
    { eapply Qle_lt_trans; [|exact Hi]. rewrite T.
      apply Qle_trans with (x * 10 + 0)%Q.
      - rewrite Qplus_0_r. apply Qmult_le_0_compat; [exact Hx | discriminate].
      - apply Qplus_le_r. discriminate. }
    change 0%Q with (inject_Z 0) in P. rewrite <- Zlt_Qlt in P. lia.
  - apply Qabs_Qle_condition. rewrite inject_Z_plus in Hi. rewrite T in Lo, Hi.
    change (inject_Z 1) with 1%Q in Hi.
    split.
    + apply Qplus_le_l with (z := (10 * x + 1)%Q).
      apply Qlt_le_weak.
      setoid_replace (- (1 # 2) + (10 * x + 1))%Q with (x * 10 + (1 # 2))%Q by ring.
      setoid_replace (inject_Z n - 10 * x + (10 * x + 1))%Q with (inject_Z n + 1)%Q
        by ring.
      exact Hi.
    + apply Qplus_le_l with (z := (10 * x)%Q).
      setoid_replace (inject_Z n - 10 * x + 10 * x)%Q with (inject_Z n) by ring.
      setoid_replace ((1 # 2) + 10 * x)%Q with (x * 10 + (1 # 2))%Q by ring.
      exact Lo.
Qed.

(** X18. The handle time shown is the handle time rounded to the nearest
    tenth: for a finite [avg_handle_time_sec] below 10^21 in magnitude the
    entry is a minus sign when the number is negative, then digits with
    one digit after the point, and the number of tenths those digits
    denote is within one half of ten times the magnitude. *)
Theorem avg_handle_time_rounding `{Host} (data : QueueReportJSON) (q : Q) :
  avg_handle_time_sec (queue_metrics data) = Finite q ->
  (Qabs q < inject_Z (10 ^ 21))%Q ->
  exists (int frac : string) (n : N),
    lookup "Avg Handle Time" (displayKpi (constructor data))
      = Some (VString ((if (Qnum q <? 0)%Z then "-" else "") ++
                       int ++ "." ++ frac ++ "s")) /\
    String.length frac = 1%nat /\
    digits_value (int ++ frac) = Some n /\
    (Qabs (inject_Z (Z.of_N n) - 10 * Qabs q) <= 1 # 2)%Q.
Proof.
  intros Hq Hlt.
  assert (L : lookup "Avg Handle Time" (displayKpi (constructor data))
              = Some (VString (toFixed (avg_handle_time_sec (queue_metrics data)) 1
                               ++ "s"))) by reflexivity.
  rewrite L, Hq. clear L. unfold toFixed.
  destruct (Qle_bool (inject_Z (10 ^ 21)) (Qabs q)) eqn:E.
  { apply Qle_bool_iff in E. exfalso. exact (Qlt_not_le _ _ Hlt E). }
  destruct (tenths_nearest (Qabs q) (Qabs_nonneg q)) as [Hn Hr].
  set (z := Qfloor _) in *. cbn [Nat.add].
  set (m := padStart 2 "0" (decimal (Z.to_N z))).
  destruct (split_last m (padStart_length 2 "0" (decimal (Z.to_N z))))
    as (a & c & Em & _ & -> & ->).
  exists a, (String c ""), (Z.to_N z).
  split; [now rewrite !append_assoc|]. split; [reflexivity|].
  split.
  - rewrite <- Em. apply digits_value_padStart.
  - now rewrite Z2N.id.
Qed.

Lemma avg_handle_time_rounding_witness :
  exists int frac n,
    lookup "Avg Handle Time"
      (displayKpi (@constructor Sample.host
                     (Sample.queueReport "" "" (Finite (26733 # 100)))))
      = Some (VString (int ++ "." ++ frac ++ "s")) /\
    digits_value (int ++ frac) = Some n.
Proof.
  destruct (@avg_handle_time_rounding Sample.host
              (Sample.queueReport "" "" (Finite (26733 # 100))) (26733 # 100)
              eq_refl eq_refl) as (int & frac & n & E & _ & V & _).
  exists int, frac, n. split; [exact E | exact V].
Defined.

End QueueDialogMore.
